(** * LLAMAClassify (core/classify/llama.py): a shallow embedding

    The sequence-classification task of SuperAdapters: tokenization of one
    labelled example, the train/validation splitter, the fine-tuning
    orchestrator and the batch-inference driver.  Python objects are modelled
    as data, exceptions as an error result, and the effects of the module
    (printing, the file system probe, the random generator, the calls into
    the trainer) as explicit state passing over a [World]. *)

From Stdlib Require Import ZArith QArith_base Ascii.
From stdpp Require Import base numbers strings list gmap.

Open Scope string_scope.
Open Scope Z_scope.

(** ** Python values, exceptions and results *)

(** The dynamically typed values the module handles: dataset cells,
    configuration attributes and the tokenizer's output columns. *)
Inductive value :=
| VNone
| VBool (b : bool)
| VInt (n : Z)
| VStr (s : string)
| VList (l : list Z).

#[global] Instance value_eq_dec : EqDecision value.
Proof. solve_decision. Defined.

(** Python truthiness ([if x:], [not x]). *)
Definition truthy (v : value) : bool :=
  match v with
  | VNone => false
  | VBool b => b
  | VInt n => negb (Z.eqb n 0)
  | VStr s => negb (String.eqb s "")
  | VList l => negb (bool_decide (l = []))
  end.

Inductive exn :=
| KeyError (k : string)
| ValueError
| TypeError
| IndexError
| ZeroDivisionError
| OverflowError.

(** A computation that returns or raises. *)
Inductive result (A : Type) :=
| Ok (a : A)
| Raise (e : exn).
Arguments Ok {A} a.
Arguments Raise {A} e.

#[global] Instance result_ret : MRet result := @Ok.
#[global] Instance result_bind : MBind result := fun A B f r =>
  match r with
  | Ok a => f a
  | Raise e => Raise e
  end.
#[global] Instance result_fmap : FMap result := fun A B f r =>
  match r with
  | Ok a => Ok (f a)
  | Raise e => Raise e
  end.

(** [for x in xs: ys.append(f(x))], stopping at the first exception. *)
Fixpoint mapR {A B} (f : A → result B) (xs : list A) : result (list B) :=
  match xs with
  | [] => Ok []
  | x :: xs' => y ← f x; ys ← mapR f xs'; Ok (y :: ys)
  end.

(** One row of a dataset (a dict from column name to cell) and a dataset. *)
Abbreviation Row := (gmap string value).
Abbreviation Dataset := (list (gmap string value)).

(** [d[k]] on a dict. *)
Definition getitem (d : Row) (k : string) : result value :=
  match d !! k with
  | Some v => Ok v
  | None => Raise (KeyError k)
  end.

(** [list.index(x)] on a list of strings: the first position whose element
    equals [x]; [ValueError] when there is none.  A cell that is not a
    string equals no string. *)
Fixpoint index_from (l : list string) (s : string) (i : nat) : result nat :=
  match l with
  | [] => Raise ValueError
  | x :: l' => if String.eqb x s then Ok i else index_from l' s (S i)
  end.

Definition list_index (l : list string) (x : value) : result nat :=
  match x with
  | VStr s => index_from l s 0
  | _ => Raise ValueError
  end.

(** ** The tokenizer *)

(** A pretrained tokenizer: its encoding of a text (special tokens
    included), the model's maximal length and the two special tokens the
    loader looks at. *)
Record Tokenizer := {
  tokens : string → list Z;
  model_max_length : nat;
  pad_token : option string;
  eos_token : option string
}.

Definition set_pad_token (p : option string) (t : Tokenizer) : Tokenizer :=
  {| tokens := tokens t; model_max_length := model_max_length t;
     pad_token := p; eos_token := eos_token t |}.

(** [tokenizer(text, truncation=..., padding=False)]: the ids, cut at the
    model's maximal length when [truncation] is set, and an attention mask
    of ones; a text that is not a string is refused. *)
Definition call_tokenizer (t : Tokenizer) (truncation : bool) (text : value)
  : result Row :=
  match text with
  | VStr s =>
      let ids := if truncation then take (model_max_length t) (tokens t s)
                 else tokens t s in
      Ok (<["attention_mask" := VList (replicate (length ids) 1)]>
          (<["input_ids" := VList ids]> ∅))
  | _ => Raise ValueError
  end.

(** ** The task object *)

Record LLAMAClassify := {
  base_model : string;
  model_type : string;
  load_8bit : bool;
  device_map : string;
  device : string;
  add_eos_token : bool;
  tokenizer : option Tokenizer;
  labels : list string;
  val_set_size : Z;
  lora_target_modules : list string;
  resume_from_checkpoint : value;
  per_gpu_train_batch_size : Z;
  gradient_accumulation_steps : Z;
  world_size : Z;
  ddp : bool;
  epochs : Z;
  learning_rate : Q;
  is_fp16 : bool;
  logging_steps : Z;
  output_dir : string;
  group_by_length : bool;
  use_mps_device : bool;
  disable_wandb : bool;
  adapter_weights : string
}.

Definition set_tokenizer (t : option Tokenizer) (o : LLAMAClassify) :=
  {| base_model := base_model o; model_type := model_type o;
     load_8bit := load_8bit o; device_map := device_map o;
     device := device o; add_eos_token := add_eos_token o;
     tokenizer := t; labels := labels o; val_set_size := val_set_size o;
     lora_target_modules := lora_target_modules o;
     resume_from_checkpoint := resume_from_checkpoint o;
     per_gpu_train_batch_size := per_gpu_train_batch_size o;
     gradient_accumulation_steps := gradient_accumulation_steps o;
     world_size := world_size o; ddp := ddp o; epochs := epochs o;
     learning_rate := learning_rate o; is_fp16 := is_fp16 o;
     logging_steps := logging_steps o; output_dir := output_dir o;
     group_by_length := group_by_length o;
     use_mps_device := use_mps_device o;
     disable_wandb := disable_wandb o;
     adapter_weights := adapter_weights o |}.

Definition set_lora_target_modules (l : list string) (o : LLAMAClassify) :=
  {| base_model := base_model o; model_type := model_type o;
     load_8bit := load_8bit o; device_map := device_map o;
     device := device o; add_eos_token := add_eos_token o;
     tokenizer := tokenizer o; labels := labels o;
     val_set_size := val_set_size o;
     lora_target_modules := l;
     resume_from_checkpoint := resume_from_checkpoint o;
     per_gpu_train_batch_size := per_gpu_train_batch_size o;
     gradient_accumulation_steps := gradient_accumulation_steps o;
     world_size := world_size o; ddp := ddp o; epochs := epochs o;
     learning_rate := learning_rate o; is_fp16 := is_fp16 o;
     logging_steps := logging_steps o; output_dir := output_dir o;
     group_by_length := group_by_length o;
     use_mps_device := use_mps_device o;
     disable_wandb := disable_wandb o;
     adapter_weights := adapter_weights o |}.

Definition set_resume_from_checkpoint (v : value) (o : LLAMAClassify) :=
  {| base_model := base_model o; model_type := model_type o;
     load_8bit := load_8bit o; device_map := device_map o;
     device := device o; add_eos_token := add_eos_token o;
     tokenizer := tokenizer o; labels := labels o;
     val_set_size := val_set_size o;
     lora_target_modules := lora_target_modules o;
     resume_from_checkpoint := v;
     per_gpu_train_batch_size := per_gpu_train_batch_size o;
     gradient_accumulation_steps := gradient_accumulation_steps o;
     world_size := world_size o; ddp := ddp o; epochs := epochs o;
     learning_rate := learning_rate o; is_fp16 := is_fp16 o;
     logging_steps := logging_steps o; output_dir := output_dir o;
     group_by_length := group_by_length o;
     use_mps_device := use_mps_device o;
     disable_wandb := disable_wandb o;
     adapter_weights := adapter_weights o |}.

(** ** tokenize_prompt *)

(** [self.tokenizer(...)]: the class attribute is [None] until [finetune]
    or [generate] assigns it, and calling [None] is a [TypeError]. *)
Definition self_tokenizer (self : LLAMAClassify) (truncation : bool)
    (text : value) : result Row :=
  match tokenizer self with
  | Some t => call_tokenizer t truncation text
  | None => Raise TypeError
  end.

(** [torch.tensor(n)] of an index: a scalar holding that integer. *)
Definition tensor (n : nat) : value := VInt (Z.of_nat n).

Definition tokenize_prompt (self : LLAMAClassify) (data_point : Row) : result Row :=
  text ← getitem data_point "input";
  tokenize_res ← self_tokenizer self true text;
  out ← getitem data_point "output";
  i ← list_index (labels self) out;
  Ok (<["labels" := tensor i]> tokenize_res).

(** ** Python's [int / int] and [int(float)] *)

Module PyFloat.

(** A finite binary64 number [mant * 2 ^ expo], with [|mant| <= 2 ^ 53]. *)
Record float := { mant : Z; expo : Z }.

(** The integer nearest to [n / d] for [0 <= n] and [0 < d], ties going to
    the even one. *)
Definition round_half_even (n d : Z) : Z :=
  let q := n / d in
  let r := n mod d in
  if 2 * r <? d then q
  else if d <? 2 * r then q + 1
  else if Z.even q then q else q + 1.

(** Numerator and denominator of [n / (d * 2 ^ e)]. *)
Definition scaled (n d e : Z) : Z * Z :=
  if 0 <=? e then (n, d * 2 ^ e) else (n * 2 ^ (- e), d).

(** The exponent of the 53-bit significand of [n / d] for [0 < n], [0 < d]:
    the [e] with [2 ^ 52 <= n / (d * 2 ^ e) < 2 ^ 53], not below the
    exponent of the subnormal numbers. *)
Definition exponent_of (n d : Z) : Z :=
  let l := Z.log2 n - Z.log2 d in
  let '(x, y) := scaled n d (l - 52) in
  Z.max (if 2 ^ 52 <=? x / y then l - 52 else l - 53) (-1074).

(** [a / b] on integers: the quotient correctly rounded to binary64. *)
Definition truediv (a b : Z) : result float :=
  if b =? 0 then Raise ZeroDivisionError
  else if a =? 0 then Ok {| mant := 0; expo := 0 |}
  else
    let e := exponent_of (Z.abs a) (Z.abs b) in
    let '(x, y) := scaled (Z.abs a) (Z.abs b) e in
    let m := round_half_even x y in
    if 1024 <=? Z.log2 m + e then Raise OverflowError
    else Ok {| mant := Z.sgn a * Z.sgn b * m; expo := e |}.

(** [int(x)]: truncation toward zero. *)
Definition int (x : float) : Z :=
  if 0 <=? expo x then mant x * 2 ^ expo x
  else Z.quot (mant x) (2 ^ (- expo x)).

End PyFloat.

(** [int(a / b)]. *)
Definition int_truediv (a b : Z) : result Z :=
  x ← PyFloat.truediv a b; Ok (PyFloat.int x).

(** [a // b]: floor division. *)
Definition floordiv (a b : Z) : result Z :=
  if b =? 0 then Raise ZeroDivisionError else Ok (a / b).

(** ** Models, the trainer and the outside world *)

(** What the module does to a model object after loading it. *)
Inductive model_op :=
| PrepareInt8                          (* prepare_model_for_int8_training *)
| SetPeftState (path : string)         (* set_peft_model_state_dict(model, torch.load(path)) *)
| NoCache                              (* model.config.use_cache = False *)
| Compile                              (* torch.compile *)
| PeftFromPretrained (path : string)   (* PeftModel.from_pretrained *)
| Half                                 (* model.half() *)
| To (dev : string)                    (* model.to(device) *)
| EvalMode.                            (* model.eval() *)

(** A model: the pretrained checkpoint it was loaded from and the
    operations applied to it since, oldest first. *)
Record Model := {
  pretrained : string;
  in_8bit : bool;
  on_device_map : string;
  ops : list model_op
}.

Definition apply_op (op : model_op) (m : Model) : Model :=
  {| pretrained := pretrained m; in_8bit := in_8bit m;
     on_device_map := on_device_map m; ops := ops m ++ [op] |}.

Record TrainingArguments := {
  per_device_train_batch_size : Z;
  ta_gradient_accumulation_steps : Z;
  warmup_steps : Z;
  num_train_epochs : Z;
  ta_learning_rate : Q;
  fp16 : bool;
  optim : string;
  ta_logging_steps : Z;
  evaluation_strategy : string;
  save_strategy : string;
  eval_steps : option Z;
  save_steps : Z;
  ta_output_dir : string;
  save_total_limit : Z;
  load_best_model_at_end : bool;
  ddp_find_unused_parameters : option bool;
  ta_group_by_length : bool;
  ta_use_mps_device : bool;
  report_to : option string
}.

Record Trainer := {
  tr_model : Model;
  train_dataset : Dataset;
  eval_dataset : option Dataset;
  args : TrainingArguments;
  data_collator : option Tokenizer
}.

(** The visible actions of the module, in the order they happen. *)
Inductive event :=
| Printed (s : string)
| TorchLoad (path : string)
| NewTrainer (t : Trainer)
| Train (t : Trainer) (resume : value)
| SavePretrained (m : Model) (dir : string)
| EvalOutput (items : Dataset).

(** What [load_train_data] hands back: nothing, or a dict of splits. *)
Inductive train_data :=
| NoData
| Splits (d : gmap string Dataset).

(** [not data] is true of [None] and of the empty dict. *)
Definition truthy_data (d : train_data) : bool :=
  match d with
  | NoData => false
  | Splits d => negb (bool_decide (d = ∅))
  end.

Definition getsplit (d : train_data) (k : string) : result Dataset :=
  match d with
  | NoData => Raise TypeError
  | Splits d => match d !! k with
                | Some ds => Ok ds
                | None => Raise (KeyError k)
                end
  end.

(** numpy's generators as [datasets] uses them: a permutation of [range(n)]
    from a generator seeded afresh, and one drawn from the process-wide
    generator, which advances. *)
Class Random := {
  rng_state : Type;
  seeded_permutation : Z → nat → list nat;
  global_permutation : rng_state → nat → list nat * rng_state;
  seeded_permutation_perm : ∀ seed n, seeded_permutation seed n ≡ₚ seq 0 n;
  global_permutation_perm : ∀ s n, (global_permutation s n).1 ≡ₚ seq 0 n
}.

(** The pretrained-model runtime: the tokenizer stored with a checkpoint,
    the arg-max of the logits of one forward pass, and the two facts about
    the platform that [finetune] asks for. *)
Class Runtime := {
  tokenizer_from_pretrained : string → bool → Tokenizer;
  argmax_logits : Model → Row → nat;
  torch_version : string;
  sys_platform : string
}.

(** The hooks of the base class [core.llm.LLM], which this class inherits
    and does not override. *)
Class LLM := {
  auto_device : LLAMAClassify → LLAMAClassify;
  load_adapter_config : LLAMAClassify → Model → Model;
  load_train_data : LLAMAClassify → value → value → train_data;
  get_eval_input :
    LLAMAClassify → value → value → value → value → value → value → Dataset
}.

Section Task.
Context `{!Random, !Runtime, !LLM}.

(** The state outside the object: the files that exist, the process-wide
    random generator and the actions so far. *)
Record World := {
  files : gset string;
  np_random : rng_state;
  trace : list event
}.

(** A method body: reads and changes the world, returns or raises. *)
Definition M (A : Type) : Type := World → result (A * World).

#[global] Instance M_ret : MRet M := fun A a w => Ok (a, w).
#[global] Instance M_bind : MBind M := fun A B f m w =>
  match m w with
  | Ok (a, w') => f a w'
  | Raise e => Raise e
  end.

Definition lift {A} (r : result A) : M A := fun w =>
  match r with
  | Ok a => Ok (a, w)
  | Raise e => Raise e
  end.

Definition emit (e : event) : M unit := fun w =>
  Ok (tt, {| files := files w; np_random := np_random w;
             trace := trace w ++ [e] |}).

Definition print (s : string) : M unit := emit (Printed s).

(** [os.path.exists]. *)
Definition os_path_exists (p : string) : M bool := fun w =>
  Ok (bool_decide (p ∈ files w), w).

Fixpoint ends_with_slash (s : string) : bool :=
  match s with
  | EmptyString => false
  | String c EmptyString => bool_decide (c = "/"%char)
  | String _ s' => ends_with_slash s'
  end.

Definition starts_with_slash (s : string) : bool :=
  match s with
  | String c _ => bool_decide (c = "/"%char)
  | EmptyString => false
  end.

(** [os.path.join(a, b)] on POSIX. *)
Definition os_path_join (a b : string) : string :=
  if starts_with_slash b then b
  else if String.eqb a "" || ends_with_slash a then a +:+ b
  else a +:+ "/" +:+ b.

(** *** The [datasets] operations the splitter chains *)

(** [Dataset.select(indices)]. *)
Definition select (indices : list nat) (ds : Dataset) : Dataset :=
  omap (λ i, ds !! i) indices.

(** [Dataset.shuffle()] without a seed. *)
Definition shuffle (ds : Dataset) : M Dataset := fun w =>
  let '(p, s) := global_permutation (np_random w) (length ds) in
  Ok (select p ds, {| files := files w; np_random := s; trace := trace w |}).

(** [Dataset.train_test_split(test_size=k, shuffle=True, seed=seed)] with an
    integer [test_size]: the first [k] rows of the seeded permutation are
    the test split, the remaining ones the train split. *)
Definition train_test_split (test_size : Z) (seed : Z) (ds : Dataset)
  : result (Dataset * Dataset) :=
  let n := length ds in
  if (Z.of_nat n <=? test_size) || (test_size <=? 0) then Raise ValueError
  else
    let p := seeded_permutation seed n in
    let n_test := Z.to_nat test_size in
    Ok (select (drop n_test p) ds, select (take n_test p) ds).

(** [Dataset.map(f)]: every row updated with the dict [f] returns for it. *)
Definition map_rows (f : Row → result Row) (ds : Dataset) : result Dataset :=
  mapR (λ row, upd ← f row; Ok (upd ∪ row)) ds.

(** [Dataset.remove_columns(names)]: a name that is not a column is a
    [ValueError]. *)
Definition remove_columns (names : list string) (ds : Dataset) : result Dataset :=
  mapR (λ row : Row,
          if forallb (λ k, bool_decide (is_Some (row !! k))) names
          then Ok (foldr delete row names)
          else Raise ValueError) ds.

(** *** split_train_data *)

Definition split_train_data (self : LLAMAClassify) (data : train_data)
  : M (Dataset * option Dataset) :=
  if 0 <? val_set_size self then
    all ← lift (getsplit data "train");
    train_val ← lift (train_test_split (val_set_size self) 42 all);
    tr ← shuffle train_val.1;
    tr ← lift (map_rows (tokenize_prompt self) tr);
    train_data ← lift (remove_columns ["input"; "instruction"; "output"] tr);
    te ← shuffle train_val.2;
    te ← lift (map_rows (tokenize_prompt self) te);
    val_data ← lift (remove_columns ["input"; "instruction"; "output"] te);
    mret (train_data, Some val_data)
  else
    all ← lift (getsplit data "train");
    tr ← shuffle all;
    tr ← lift (map_rows (tokenize_prompt self) tr);
    train_data ← lift (remove_columns ["input"; "instruction"; "output"] tr);
    mret (train_data, None).

(** *** get_model_tokenizer *)

Definition get_model_tokenizer (self : LLAMAClassify) : Model * Tokenizer :=
  let model := {| pretrained := base_model self; in_8bit := load_8bit self;
                  on_device_map := device_map self; ops := [] |} in
  let tokenizer := tokenizer_from_pretrained (base_model self) (add_eos_token self) in
  let tokenizer :=
    match pad_token tokenizer with
    | None => set_pad_token (eos_token tokenizer) tokenizer
    | Some _ => tokenizer
    end in
  (model, tokenizer).

(** *** finetune *)

(** Lines 68-83: the adapter's target modules when none are configured. *)
Definition default_target_modules (self : LLAMAClassify) : LLAMAClassify :=
  match lora_target_modules self with
  | [] =>
      if String.eqb (model_type self) "llama2" then
        set_lora_target_modules
          ["q_proj"; "v_proj"; "k_proj"; "o_proj"; "gate_proj"; "down_proj";
           "up_proj"] self
      else set_lora_target_modules ["q_proj"; "v_proj"] self
  | _ :: _ => self
  end.

(** [os.path.join] wants a path. *)
Definition as_path (v : value) : result string :=
  match v with
  | VStr s => Ok s
  | _ => Raise TypeError
  end.

(** Lines 98-116: the weights to restart from. *)
Definition resume_checkpoint (self : LLAMAClassify) (model : Model)
  : M (LLAMAClassify * Model) :=
  if truthy (resume_from_checkpoint self) then
    dir ← lift (as_path (resume_from_checkpoint self));
    let checkpoint_name := os_path_join dir "pytorch_model.bin" in
    full ← os_path_exists checkpoint_name;
    let '(checkpoint_name, self) :=
      if negb (full : bool) then
        (os_path_join dir "adapter_model.bin",
         set_resume_from_checkpoint (VBool false) self)
      else (checkpoint_name, self) in
    found ← os_path_exists checkpoint_name;
    if (found : bool) then
      _ ← print ("Restarting from " +:+ checkpoint_name);
      _ ← emit (TorchLoad checkpoint_name);
      mret (self, apply_op (SetPeftState checkpoint_name) model)
    else
      _ ← print ("Checkpoint " +:+ checkpoint_name +:+ " not found");
      mret (self, model)
  else mret (self, model).

(** Lines 118-121: the step counts derived from the batch configuration. *)
Record Schedule := {
  total_batch_size : Z;
  total_optim_steps : Z;
  saving_step : Z;
  sched_warmup_steps : Z
}.

Definition schedule (self : LLAMAClassify) (num_rows : Z) : result Schedule :=
  let total_batch_size :=
    per_gpu_train_batch_size self * gradient_accumulation_steps self
    * (if ddp self then world_size self else 1) in
  total_optim_steps ← floordiv num_rows total_batch_size;
  saving_step ← int_truediv total_optim_steps 10;
  warmup_steps ← int_truediv total_optim_steps 10;
  Ok {| total_batch_size := total_batch_size;
        total_optim_steps := total_optim_steps;
        saving_step := saving_step;
        sched_warmup_steps := warmup_steps |}.

(** Lines 122-143. *)
Definition training_arguments (self : LLAMAClassify) (s : Schedule)
  : TrainingArguments :=
  {| per_device_train_batch_size := per_gpu_train_batch_size self;
     ta_gradient_accumulation_steps := gradient_accumulation_steps self;
     warmup_steps := sched_warmup_steps s;
     num_train_epochs := epochs self;
     ta_learning_rate := learning_rate self;
     fp16 := is_fp16 self;
     optim := "adamw_torch";
     ta_logging_steps := logging_steps self;
     evaluation_strategy := if 0 <? val_set_size self then "steps" else "no";
     save_strategy := "steps";
     eval_steps := if 0 <? val_set_size self then Some (saving_step s) else None;
     save_steps := saving_step s;
     ta_output_dir := output_dir self;
     save_total_limit := 11;
     load_best_model_at_end := if 0 <? val_set_size self then true else false;
     ddp_find_unused_parameters := if ddp self then Some false else None;
     ta_group_by_length := group_by_length self;
     ta_use_mps_device := use_mps_device self;
     report_to := if disable_wandb self then None else Some "wandb" |}.

(** Lines 66-89: the device, the target modules, the model with its
    adapter and the tokenizer. *)
Definition finetune_setup (self : LLAMAClassify) : LLAMAClassify * Model :=
  let self := auto_device self in
  let self := default_target_modules self in
  let '(model, tok) := get_model_tokenizer self in
  let self := set_tokenizer (Some tok) self in
  let model := if load_8bit self then apply_op PrepareInt8 model else model in
  let model := load_adapter_config self model in
  (self, model).

Definition finetune (self : LLAMAClassify) (fromdb iteration : value)
  : M LLAMAClassify :=
  let '(self, model) := finetune_setup self in
  let data := load_train_data self fromdb iteration in
  if negb (truthy_data data) then
    _ ← print "Warning! Empty Train Data!";
    mret self
  else
    '(train_data, val_data) ← split_train_data self data;
    '(self, model) ← resume_checkpoint self model;
    s ← lift (schedule self (Z.of_nat (length train_data)));
    let train_args := training_arguments self s in
    let trainer := {| tr_model := model; train_dataset := train_data;
                      eval_dataset := val_data; args := train_args;
                      data_collator := tokenizer self |} in
    _ ← emit (NewTrainer trainer);
    (* the trainer holds the very object whose cache is switched off *)
    let model := apply_op NoCache model in
    let trainer := {| tr_model := model; train_dataset := train_data;
                      eval_dataset := val_data; args := train_args;
                      data_collator := tokenizer self |} in
    let model :=
      if String.leb "2" torch_version && negb (String.eqb sys_platform "win32")
      then apply_op Compile model else model in
    _ ← emit (Train trainer (resume_from_checkpoint self));
    _ ← emit (SavePretrained model (output_dir self));
    _ ← print (String "010"%char
                 " If there's a warning about missing keys above, please disregard :)");
    mret self.

(** *** evaluate *)

Definition evaluate (self : LLAMAClassify) (model : Model) (input : value)
  : result string :=
  inputs ← self_tokenizer self false input;
  let predicted_class_idx := argmax_logits model inputs in
  match labels self !! predicted_class_idx with
  | Some l => Ok l
  | None => Raise IndexError
  end.

(** *** generate *)

(** Lines 173-186: the model the evaluation loop runs. *)
Definition inference_model (self : LLAMAClassify) : LLAMAClassify * Model :=
  let self := auto_device self in
  let '(model, tok) := get_model_tokenizer self in
  let self := set_tokenizer (Some tok) self in
  let model :=
    if negb (String.eqb (adapter_weights self) "None")
    then apply_op (PeftFromPretrained (adapter_weights self)) model
    else model in
  let model := if negb (load_8bit self) then apply_op Half model else model in
  let model := apply_op EvalMode (apply_op (To (device self)) model) in
  (self, model).

Definition generate (self : LLAMAClassify)
    (instruction input data fromdb type iteration test_iteration : value)
  : M LLAMAClassify :=
  let '(self, model) := inference_model self in
  let eval_inputs := get_eval_input self instruction input data fromdb type iteration in
  eval_inputs ← lift (mapR (λ item : Row,
                              text ← getitem item "input";
                              response ← evaluate self model text;
                              Ok (<["ac_output" := VStr response]> item))
                           eval_inputs);
  _ ← emit (EvalOutput eval_inputs);
  mret self.

End Task.

(** ** A concrete instance

    A small runtime, generator and base class on which the properties below
    are exercised. *)

Definition rot (k n : nat) : list nat := rotate k (seq 0 n).

Definition demo_tokenizer : Tokenizer :=
  {| tokens := λ s, (λ c, Z.of_nat (nat_of_ascii c)) <$> String.list_ascii_of_string s;
     model_max_length := 4;
     pad_token := None;
     eos_token := Some "</s>" |}.

Definition demo_self : LLAMAClassify :=
  {| base_model := "llama"; model_type := "llama2"; load_8bit := false;
     device_map := "auto"; device := "cuda"; add_eos_token := false;
     tokenizer := Some demo_tokenizer; labels := ["positive"; "negative"];
     val_set_size := 0; lora_target_modules := [];
     resume_from_checkpoint := VBool false;
     per_gpu_train_batch_size := 4; gradient_accumulation_steps := 2;
     world_size := 1; ddp := false; epochs := 3;
     learning_rate := Qmake 3 10000; is_fp16 := true; logging_steps := 10;
     output_dir := "out"; group_by_length := false; use_mps_device := false;
     disable_wandb := true; adapter_weights := "None" |}.

Definition with_val_set_size (k : Z) (o : LLAMAClassify) : LLAMAClassify :=
  {| base_model := base_model o; model_type := model_type o;
     load_8bit := load_8bit o; device_map := device_map o;
     device := device o; add_eos_token := add_eos_token o;
     tokenizer := tokenizer o; labels := labels o;
     val_set_size := k;
     lora_target_modules := lora_target_modules o;
     resume_from_checkpoint := resume_from_checkpoint o;
     per_gpu_train_batch_size := per_gpu_train_batch_size o;
     gradient_accumulation_steps := gradient_accumulation_steps o;
     world_size := world_size o; ddp := ddp o; epochs := epochs o;
     learning_rate := learning_rate o; is_fp16 := is_fp16 o;
     logging_steps := logging_steps o; output_dir := output_dir o;
     group_by_length := group_by_length o;
     use_mps_device := use_mps_device o;
     disable_wandb := disable_wandb o;
     adapter_weights := adapter_weights o |}.

Definition with_adapter_weights (a : string) (o : LLAMAClassify) : LLAMAClassify :=
  {| base_model := base_model o; model_type := model_type o;
     load_8bit := load_8bit o; device_map := device_map o;
     device := device o; add_eos_token := add_eos_token o;
     tokenizer := tokenizer o; labels := labels o;
     val_set_size := val_set_size o;
     lora_target_modules := lora_target_modules o;
     resume_from_checkpoint := resume_from_checkpoint o;
     per_gpu_train_batch_size := per_gpu_train_batch_size o;
     gradient_accumulation_steps := gradient_accumulation_steps o;
     world_size := world_size o; ddp := ddp o; epochs := epochs o;
     learning_rate := learning_rate o; is_fp16 := is_fp16 o;
     logging_steps := logging_steps o; output_dir := output_dir o;
     group_by_length := group_by_length o;
     use_mps_device := use_mps_device o;
     disable_wandb := disable_wandb o;
     adapter_weights := a |}.

Definition example (input instruction output : string) : Row :=
  <["input" := VStr input]>
    (<["instruction" := VStr instruction]> (<["output" := VStr output]> ∅)).

Definition demo_rows : Dataset :=
  [example "good" "classify" "positive";
   example "bad" "classify" "negative";
   example "fine" "classify" "positive"].

Definition demo_random : Random.
Proof.
  refine {| rng_state := nat;
            seeded_permutation := λ _ n, reverse (seq 0 n);
            global_permutation := λ s n, (rot s n, S s) |}.
  - intros _ n. apply reverse_Permutation.
  - intros s n. unfold rot, rotate. simpl.
    etrans; [apply Permutation_app_comm|]. by rewrite take_drop.
Defined.

Definition demo_runtime : Runtime :=
  {| tokenizer_from_pretrained := λ _ _, demo_tokenizer;
     argmax_logits := λ _ _, 0%nat;
     torch_version := "2.0.1";
     sys_platform := "linux" |}.

Definition demo_llm (d : train_data) (items : Dataset) : LLM :=
  {| auto_device := λ self, self;
     load_adapter_config := λ _ m, m;
     load_train_data := λ _ _ _, d;
     get_eval_input := λ _ _ _ _ _ _ _, items |}.

Definition demo_model : Model :=
  {| pretrained := "llama"; in_8bit := false; on_device_map := "auto"; ops := [] |}.

Definition demo_world (existing : gset string) (seed : nat) : @World demo_random :=
  @Build_World demo_random existing seed [].

(** The record [tokenize_prompt] makes of the input [splendid] with the
    output [negative]. *)
Definition demo_record : Row :=
  <["labels" := VInt 1]>
    (<["attention_mask" := VList [1; 1; 1; 1]]>
       (<["input_ids" := VList [115; 112; 108; 101]]> ∅)).

(** A row that was loaded without the [instruction] column. *)
Definition demo_bare_row : Row :=
  <["input" := VStr "good"]> (<["output" := VStr "positive"]> ∅).

(** ** Vocabulary of the statements *)

(** An example as the data model has it: a textual [input], an
    [instruction], and an [output] that is one of the labels. *)
Definition well_formed (self : LLAMAClassify) (row : Row) : Prop :=
  (∃ text, row !! "input" = Some (VStr text)) ∧
  is_Some (row !! "instruction") ∧
  (∃ out, row !! "output" = Some (VStr out) ∧ out ∈ labels self).

(** Training data that holds no row at all: nothing was loaded, or every
    split that was loaded has zero rows. *)
Definition no_rows (d : train_data) : Prop :=
  match d with
  | NoData => True
  | Splits m => ∀ k (rows : Dataset), m !! k = Some rows → rows = []
  end.

(** What [.map(self.tokenize_prompt).remove_columns([...])] makes of one
    row. *)
Definition tokenized_row (self : LLAMAClassify) (row : Row) : result Row :=
  res ← tokenize_prompt self row;
  Ok (foldr delete (res ∪ row) ["input"; "instruction"; "output"]).

(** * Properties *)

(** ** list.index *)

Lemma index_from_Ok l s k i :
  index_from l s k = Ok i →
  ∃ j, i = (k + j)%nat ∧ l !! j = Some s ∧ ∀ j', (j' < j)%nat → l !! j' ≠ Some s.
Proof.
  revert k. induction l as [|x l IH]; intros k; simpl; [done|].
  destruct (String.eqb_spec x s) as [->|Hne].
  - intros [= <-]. exists 0%nat. split; [lia|]. split; [done|]. lia.
  - intros (j & -> & Hj & Hmin)%IH. exists (S j). split; [lia|].
    split; [done|]. intros [|j'] Hlt; simpl; [congruence|].
    apply Hmin. lia.
Qed.

Lemma index_from_elem l s k : s ∈ l → ∃ i, index_from l s k = Ok i.
Proof.
  revert k. induction l as [|x l IH]; intros k Hin; [by apply elem_of_nil in Hin|].
  simpl. destruct (String.eqb_spec x s) as [->|Hne]; [eauto|].
  apply elem_of_cons in Hin as [->|Hin]; [done|]. by apply IH.
Qed.

Lemma index_from_not_elem l s k : s ∉ l → index_from l s k = Raise ValueError.
Proof.
  revert k. induction l as [|x l IH]; intros k Hin; [done|].
  simpl. apply not_elem_of_cons in Hin as [Hne Hin].
  destruct (String.eqb_spec x s) as [->|_]; [done|]. by apply IH.
Qed.

(** ** tokenize_prompt *)

Lemma tokenize_prompt_Ok self data_point tok text out i :
  tokenizer self = Some tok →
  data_point !! "input" = Some (VStr text) →
  data_point !! "output" = Some (VStr out) →
  index_from (labels self) out 0 = Ok i →
  tokenize_prompt self data_point =
    Ok (<["labels" := tensor i]>
        (<["attention_mask" :=
             VList (replicate (length (take (model_max_length tok) (tokens tok text))) 1)]>
         (<["input_ids" := VList (take (model_max_length tok) (tokens tok text))]> ∅))).
Proof.
  intros Htok Hin Hout Hidx.
  unfold tokenize_prompt, getitem, self_tokenizer. rewrite Hin. simpl.
  rewrite Htok. simpl. rewrite Hout. simpl. by rewrite Hidx.
Qed.

(** C1. An example whose [output] is in the label vocabulary is tokenized
    into a record whose [labels] field is the position of that output in the
    vocabulary (the first one, should the vocabulary repeat a name); with
    the vocabulary [positive, negative], the output [negative] gets 1. *)
Theorem tokenize_prompt_label_index self data_point tok text out :
  tokenizer self = Some tok →
  data_point !! "input" = Some (VStr text) →
  data_point !! "output" = Some (VStr out) →
  out ∈ labels self →
  ∃ res i,
    tokenize_prompt self data_point = Ok res ∧
    res !! "labels" = Some (VInt (Z.of_nat i)) ∧
    labels self !! i = Some out ∧
    (∀ j, (j < i)%nat → labels self !! j ≠ Some out) ∧
    (labels self = ["positive"; "negative"] → out = "negative" →
     res !! "labels" = Some (VInt 1)).
Proof.
  intros Htok Hin Hout Hmem.
  destruct (index_from_elem _ _ 0%nat Hmem) as [i Hi].
  destruct (index_from_Ok _ _ _ _ Hi) as (j & -> & Hj & Hmin).
  eexists _, j. split; [by eapply tokenize_prompt_Ok|].
  split; [by rewrite lookup_insert_eq|]. split; [done|]. split; [done|].
  intros Hl ->. rewrite Hl in Hj, Hmin. rewrite lookup_insert_eq.
  destruct j as [|[|j]]; simpl in *; [done|done|].
  by rewrite lookup_nil in Hj.
Qed.

Lemma tokenize_prompt_label_index_witness :
  ∃ res i,
    tokenize_prompt demo_self (example "bad" "classify" "negative") = Ok res ∧
    res !! "labels" = Some (VInt (Z.of_nat i)) ∧
    labels demo_self !! i = Some "negative" ∧
    (∀ j, (j < i)%nat → labels demo_self !! j ≠ Some "negative") ∧
    (labels demo_self = ["positive"; "negative"] → "negative" = "negative" →
     res !! "labels" = Some (VInt 1)).
Proof.
  apply (tokenize_prompt_label_index demo_self
           (example "bad" "classify" "negative") demo_tokenizer "bad" "negative").
  - reflexivity.
  - vm_compute. reflexivity.
  - vm_compute. reflexivity.
  - simpl. apply list_elem_of_further, list_elem_of_here.
Defined.

Lemma tokenize_prompt_columns self (r r' : Row) :
  r !! "input" = r' !! "input" →
  r !! "output" = r' !! "output" →
  tokenize_prompt self r = tokenize_prompt self r'.
Proof.
  intros Hin Hout. unfold tokenize_prompt, getitem. by rewrite Hin, Hout.
Qed.

(** C9. The token ids that [tokenize_prompt] produces are determined by the
    [input] column alone, and the whole tokenized record by [input] and
    [output]: the [instruction] column (set, changed or removed) contributes
    to neither the ids nor the label. *)
Theorem tokenize_prompt_ignores_instruction self (r r' : Row) :
  r !! "input" = r' !! "input" →
  (∀ res res', tokenize_prompt self r = Ok res →
               tokenize_prompt self r' = Ok res' →
               res !! "input_ids" = res' !! "input_ids") ∧
  (r !! "output" = r' !! "output" →
   tokenize_prompt self r = tokenize_prompt self r') ∧
  (∀ v, tokenize_prompt self (<["instruction" := v]> r) = tokenize_prompt self r) ∧
  tokenize_prompt self (delete "instruction" r) = tokenize_prompt self r.
Proof.
  intros Hin. repeat split.
  - intros res res'. unfold tokenize_prompt, getitem. rewrite <- Hin.
    destruct (r !! "input") as [text|]; simpl; [|done].
    destruct (self_tokenizer self true text) as [tr|]; simpl; [|done].
    destruct (r !! "output") as [o|]; simpl; [|done].
    destruct (list_index (labels self) o) as [i|]; simpl; [|done].
    intros [= <-].
    destruct (r' !! "output") as [o'|]; simpl; [|done].
    destruct (list_index (labels self) o') as [i'|]; simpl; [|done].
    intros [= <-]. by rewrite !lookup_insert_ne.
  - by apply tokenize_prompt_columns.
  - intros v. apply tokenize_prompt_columns; by rewrite lookup_insert_ne.
  - apply tokenize_prompt_columns; by rewrite lookup_delete_ne.
Qed.

Lemma tokenize_prompt_ignores_instruction_witness :
  (∀ res res',
     tokenize_prompt demo_self (example "bad" "classify" "negative") = Ok res →
     tokenize_prompt demo_self (example "bad" "translate" "positive") = Ok res' →
     res !! "input_ids" = res' !! "input_ids") ∧
  (∀ v, tokenize_prompt demo_self
          (<["instruction" := v]> (example "bad" "classify" "negative"))
        = tokenize_prompt demo_self (example "bad" "classify" "negative")).
Proof.
  destruct (tokenize_prompt_ignores_instruction demo_self
              (example "bad" "classify" "negative")
              (example "bad" "translate" "positive")) as (Hids & _ & Hins & _).
  - vm_compute. reflexivity.
  - split; [exact Hids | exact Hins].
Defined.

(** ** [int(n / 10)] below 2^53 *)

Lemma round_half_even_lower n d :
  0 ≤ n → 0 < d → n / d ≤ PyFloat.round_half_even n d.
Proof.
  intros Hn Hd. unfold PyFloat.round_half_even.
  repeat case_match; lia.
Qed.

Lemma round_half_even_upper n d N :
  0 ≤ n → 0 < d → 2 * n + d < 2 * d * N → PyFloat.round_half_even n d < N.
Proof.
  intros Hn Hd Hlt. unfold PyFloat.round_half_even.
  pose proof (Z.div_mod n d ltac:(lia)) as Hdm.
  pose proof (Z.mod_pos_bound n d Hd) as Hr.
  assert (n / d < N) by nia.
  destruct (2 * (n mod d) <? d) eqn:Hlo; [lia|].
  apply Z.ltb_ge in Hlo.
  assert (n / d + 1 < N) by nia.
  repeat case_match; lia.
Qed.

Lemma exponent_of_10 a : 0 < a < 2 ^ 53 → PyFloat.exponent_of a 10 ≤ -3.
Proof.
  intros [Hpos Hlt]. unfold PyFloat.exponent_of.
  assert (Z.log2 a < 53) by (by apply Z.log2_lt_pow2).
  change (Z.log2 10) with 3.
  destruct (PyFloat.scaled a 10 (Z.log2 a - 3 - 52)) as [x y].
  apply Z.max_lub; [|lia]. case_match; lia.
Qed.

Lemma int_truediv_10 a : 0 ≤ a < 2 ^ 53 → int_truediv a 10 = Ok (a / 10).
Proof.
  intros [Hnn Hlt]. destruct (decide (a = 0)) as [->|Hne]; [done|].
  assert (0 < a) as Hpos by lia.
  pose proof (exponent_of_10 a (conj Hpos Hlt)) as He.
  unfold int_truediv, PyFloat.truediv.
  change (10 =? 0) with false. cbv iota.
  destruct (a =? 0) eqn:Ha; [apply Z.eqb_eq in Ha; lia|].
  rewrite (Z.abs_eq a) by lia. change (Z.abs 10) with 10.
  set (e := PyFloat.exponent_of a 10) in *.
  unfold PyFloat.scaled.
  destruct (0 <=? e) eqn:He0; [apply Z.leb_le in He0; lia|].
  set (P := 2 ^ (- e)).
  assert (8 ≤ P) as HP.
  { unfold P. change 8 with (2 ^ 3). apply Z.pow_le_mono_r; lia. }
  set (m := PyFloat.round_half_even (a * P) 10).
  pose proof (Z.div_mod a 10 ltac:(lia)) as Hdm.
  pose proof (Z.mod_pos_bound a 10 ltac:(lia)) as Hr.
  assert (a / 10 * P ≤ m) as Hlo.
  { etrans; [|apply round_half_even_lower; nia].
    apply Z.div_le_lower_bound; nia. }
  assert (m < (a / 10 + 1) * P) as Hhi.
  { apply round_half_even_upper; nia. }
  assert (m < 2 ^ (53 - e)) as Hm.
  { replace (53 - e) with (53 + - e) by lia.
    rewrite Z.pow_add_r by lia. fold P. nia. }
  assert (Z.log2 m + e < 1024) as Hlog.
  { destruct (decide (m = 0)) as [->|Hm0]; [simpl; lia|].
    assert (Z.log2 m < 53 - e) by (apply Z.log2_lt_pow2; lia). lia. }
  destruct (1024 <=? Z.log2 m + e) eqn:Hov; [apply Z.leb_le in Hov; lia|].
  simpl. unfold PyFloat.int. simpl. rewrite He0. fold P.
  rewrite (Z.sgn_pos a) by lia. f_equal.
  assert (0 ≤ a / 10) as Hk by lia.
  assert (0 ≤ m) as Hm0 by nia.
  replace (1 * 1 * m) with m by lia.
  rewrite Z.quot_div_nonneg by lia.
  symmetry. apply Z.div_unique with (m - a / 10 * P); nia.
Qed.

(** The rounding of the quotient to binary64 shows in the last digits of
    [1 / 10], in the truncation of negative quotients, and in integers that
    53 bits no longer hold. *)
Example truediv_one_tenth :
  PyFloat.truediv 1 10 = Ok {| PyFloat.mant := 7205759403792794; PyFloat.expo := -56 |}.
Proof. vm_compute. reflexivity. Qed.

Example int_truediv_negative : int_truediv (-5) 10 = Ok 0.
Proof. vm_compute. reflexivity. Qed.

Example int_truediv_large :
  int_truediv (10 * (2 ^ 52 + 1) - 1) 10 = Ok (2 ^ 52 + 1).
Proof. vm_compute. reflexivity. Qed.

Example int_truediv_overflow : int_truediv (10 ^ 400) 10 = Raise OverflowError.
Proof. vm_compute. reflexivity. Qed.

Lemma schedule_value self (rows : nat) :
  0 < per_gpu_train_batch_size self * gradient_accumulation_steps self
      * (if ddp self then world_size self else 1) →
  Z.of_nat rows < 2 ^ 53 →
  let batch := per_gpu_train_batch_size self * gradient_accumulation_steps self
               * (if ddp self then world_size self else 1) in
  schedule self (Z.of_nat rows) =
    Ok {| total_batch_size := batch;
          total_optim_steps := Z.of_nat rows / batch;
          saving_step := Z.of_nat rows / batch / 10;
          sched_warmup_steps := Z.of_nat rows / batch / 10 |}.
Proof.
  intros Hbatch Hrows batch. fold batch in Hbatch.
  assert (0 ≤ Z.of_nat rows / batch) as Hq by (apply Z.div_pos; lia).
  assert (Z.of_nat rows / batch ≤ Z.of_nat rows) as Hle.
  { apply Z.div_le_upper_bound; nia. }
  unfold schedule, floordiv. fold batch.
  destruct (batch =? 0) eqn:E; [apply Z.eqb_eq in E; lia|].
  simpl. by rewrite int_truediv_10 by lia.
Qed.

(** ** The step counts *)

(** C5. The effective batch size is the per-device batch size times the
    accumulation steps, times the world size only under distributed
    training; the optimizer steps are the row count floor-divided by it;
    warmup steps and the save and evaluation cadence are the floor of a
    tenth of the optimizer steps.  Batch 4, accumulation 2, no distributed
    training and 100 rows give 8, 12, 1 and 1. *)
Theorem schedule_steps self (rows : nat) :
  0 < per_gpu_train_batch_size self →
  0 < gradient_accumulation_steps self →
  (ddp self = true → 0 < world_size self) →
  Z.of_nat rows < 2 ^ 53 →
  let batch := per_gpu_train_batch_size self * gradient_accumulation_steps self
               * (if ddp self then world_size self else 1) in
  ∃ s, schedule self (Z.of_nat rows) = Ok s ∧
       total_batch_size s = batch ∧
       total_optim_steps s = Z.of_nat rows / batch ∧
       saving_step s = Z.of_nat rows / batch / 10 ∧
       sched_warmup_steps s = Z.of_nat rows / batch / 10 ∧
       warmup_steps (training_arguments self s) = Z.of_nat rows / batch / 10 ∧
       save_steps (training_arguments self s) = Z.of_nat rows / batch / 10 ∧
       eval_steps (training_arguments self s) =
         (if 0 <? val_set_size self then Some (Z.of_nat rows / batch / 10) else None) ∧
       (per_gpu_train_batch_size self = 4 → gradient_accumulation_steps self = 2 →
        ddp self = false → rows = 100%nat →
        total_batch_size s = 8 ∧ total_optim_steps s = 12 ∧
        saving_step s = 1 ∧ sched_warmup_steps s = 1).
Proof.
  intros Hb Ha Hw Hrows batch.
  assert (0 < batch) as Hbatch.
  { unfold batch. destruct (ddp self); [specialize (Hw eq_refl)|]; nia. }
  assert (0 ≤ Z.of_nat rows / batch) as Hq by (apply Z.div_pos; lia).
  assert (Z.of_nat rows / batch ≤ Z.of_nat rows) as Hle.
  { apply Z.div_le_upper_bound; nia. }
  unfold schedule, floordiv. fold batch.
  destruct (batch =? 0) eqn:E; [apply Z.eqb_eq in E; lia|].
  simpl. rewrite int_truediv_10 by lia. simpl.
  eexists. split; [reflexivity|]. simpl. do 7 (split; [done|]).
  intros Eb Ea Ed ->. unfold batch. rewrite Eb, Ea, Ed. done.
Qed.

Lemma schedule_steps_witness :
  ∃ s, schedule demo_self 100 = Ok s ∧
       total_batch_size s = 8 ∧ total_optim_steps s = 12 ∧
       saving_step s = 1 ∧ sched_warmup_steps s = 1.
Proof.
  destruct (schedule_steps demo_self 100) as (s & Hs & _ & _ & _ & _ & _ & _ & _ & Hscen).
  - reflexivity.
  - reflexivity.
  - discriminate.
  - reflexivity.
  - exists s. split; [exact Hs|]. apply Hscen; reflexivity.
Defined.

(** ** Lists of rows: [select] and [mapR] *)

Lemma select_seq_app (l1 ds : Dataset) :
  select (seq (length l1) (length ds)) (l1 ++ ds)%list = ds.
Proof.
  revert l1. induction ds as [|x ds IH]; intros l1; [done|].
  unfold select in *. simpl.
  rewrite lookup_app_r, Nat.sub_diag by lia. simpl. f_equal.
  specialize (IH (l1 ++ [x])%list).
  rewrite length_app, <- (assoc_L app) in IH. simpl in IH.
  by rewrite Nat.add_1_r in IH.
Qed.

Lemma select_seq (ds : Dataset) : select (seq 0 (length ds)) ds = ds.
Proof. apply (select_seq_app [] ds). Qed.

Lemma select_Permutation p (ds : Dataset) :
  p ≡ₚ seq 0 (length ds) → select p ds ≡ₚ ds.
Proof.
  intros Hp. unfold select. rewrite Hp. fold (select (seq 0 (length ds)) ds).
  by rewrite select_seq.
Qed.

Lemma select_app p q (ds : Dataset) :
  select (p ++ q)%list ds = (select p ds ++ select q ds)%list.
Proof. apply omap_app. Qed.

Lemma select_length p (ds : Dataset) :
  Forall (λ i, (i < length ds)%nat) p → length (select p ds) = length p.
Proof.
  induction 1 as [|i p Hi _ IH]; [done|].
  unfold select in *. simpl.
  destruct (lookup_lt_is_Some_2 ds i Hi) as [x Hx]. rewrite Hx. simpl.
  by f_equal.
Qed.

Lemma Permutation_seq_bound p n :
  p ≡ₚ seq 0 n → Forall (λ i, (i < n)%nat) p.
Proof.
  intros Hp. apply Forall_forall. intros i Hi. rewrite Hp in Hi.
  apply elem_of_seq in Hi. lia.
Qed.


Lemma mapR_Raise {A B} (f : A → result B) xs x :
  x ∈ xs → (∃ e, f x = Raise e) → ∃ e, mapR f xs = Raise e.
Proof.
  intros Hin [e He]. induction xs as [|y xs IH]; [by apply elem_of_nil in Hin|].
  apply elem_of_cons in Hin as [->|Hin]; simpl.
  - rewrite He. simpl. eauto.
  - destruct (f y); simpl; [|by eauto]. destruct (IH Hin) as [e' ->]. simpl. eauto.
Qed.

Lemma Forall2_fun_Permutation {A B} (f : A → result B) xs xs' ys ys' :
  xs ≡ₚ xs' →
  Forall2 (λ x y, f x = Ok y) xs ys →
  Forall2 (λ x y, f x = Ok y) xs' ys' →
  ys ≡ₚ ys'.
Proof.
  intros Hp H1 H2.
  set (g := λ x, match f x with Ok y => Some y | Raise _ => None end).
  assert (∀ l l', Forall2 (λ x y, f x = Ok y) l l' → l' = omap g l) as Hg.
  { induction 1 as [|x y l l' Hxy _ IH]; [done|].
    simpl. unfold g at 1. rewrite Hxy. simpl. by f_equal. }
  rewrite (Hg _ _ H1), (Hg _ _ H2). by apply omap_Permutation.
Qed.

(** ** Rows through the tokenizer and the column removal *)

Lemma well_formed_tokenize_prompt self tok row :
  tokenizer self = Some tok → well_formed self row →
  ∃ res, tokenize_prompt self row = Ok res ∧
         res !! "input" = None ∧ res !! "instruction" = None ∧
         res !! "output" = None ∧ is_Some (res !! "labels") ∧
         is_Some (res !! "input_ids").
Proof.
  intros Htok ([text Hin] & _ & (out & Hout & Hmem)).
  destruct (index_from_elem _ _ 0%nat Hmem) as [i Hi].
  eexists. split; [by eapply tokenize_prompt_Ok|].
  rewrite !lookup_insert_ne, lookup_empty by done.
  rewrite lookup_insert_eq, lookup_insert_ne, lookup_insert_ne, lookup_insert_eq by done.
  eauto.
Qed.


Lemma remove_columns_cons names (row : Row) (tr out : Dataset) :
  Forall (λ k, is_Some (row !! k)) names →
  remove_columns names tr = Ok out →
  remove_columns names (row :: tr) = Ok (foldr delete row names :: out).
Proof.
  intros Hall Htr. unfold remove_columns in *. cbn [mapR].
  rewrite Htr.
  replace (forallb _ names) with true; [done|].
  symmetry. apply forallb_forall. intros k Hk.
  apply bool_decide_eq_true. rewrite Forall_forall in Hall.
  by apply Hall, list_elem_of_In.
Qed.

Lemma tokenize_remove_Ok self tok (ds : Dataset) :
  tokenizer self = Some tok → Forall (well_formed self) ds →
  ∃ tr out,
    map_rows (tokenize_prompt self) ds = Ok tr ∧
    remove_columns ["input"; "instruction"; "output"] tr = Ok out ∧
    Forall2 (λ row o, tokenized_row self row = Ok o) ds out.
Proof.
  intros Htok. induction 1 as [|row ds Hwf _ (tr & out & Htr & Hout & Hall)].
  { exists [], []. repeat split; [done..|constructor]. }
  destruct (well_formed_tokenize_prompt _ _ _ Htok Hwf) as (res & Hres & _).
  destruct Hwf as ([text Hin] & [ins Hins] & (o & Ho & _)).
  exists ((res ∪ row) :: tr). eexists. split; [|split].
  - unfold map_rows in *. simpl. rewrite Hres. simpl. by rewrite Htr.
  - apply remove_columns_cons; [|done].
    repeat constructor; apply lookup_union_is_Some; right; eauto.
  - constructor; [|done]. unfold tokenized_row. by rewrite Hres.
Qed.

Lemma tokenize_Raise self (ds : Dataset) row out :
  row ∈ ds → row !! "output" = Some (VStr out) → out ∉ labels self →
  ∃ e, map_rows (tokenize_prompt self) ds = Raise e.
Proof.
  intros Hin Hout Hmem. apply (mapR_Raise _ ds row Hin).
  unfold tokenize_prompt, getitem. rewrite Hout.
  destruct (row !! "input") as [text|]; simpl; [|by eauto].
  destruct (self_tokenizer self true text); simpl; [|by eauto].
  rewrite index_from_not_elem by done. simpl. by eauto.
Qed.


Lemma select_Forall (P : Row → Prop) idx (ds : Dataset) :
  Forall P ds → Forall P (select idx ds).
Proof.
  rewrite !Forall_forall. intros Hall row Hrow.
  apply list_elem_of_omap in Hrow as (i & _ & Hi).
  by eapply Hall, list_elem_of_lookup_2.
Qed.

Lemma Forall2_fun_eq {A B} (f : A → result B) xs ys ys' :
  Forall2 (λ x y, f x = Ok y) xs ys →
  Forall2 (λ x y, f x = Ok y) xs ys' →
  ys = ys'.
Proof.
  intros H1. revert ys'. induction H1 as [|x y xs ys Hy _ IH]; intros ys' H2.
  - by inversion H2.
  - inversion H2 as [|? y' ? ys'' Hy' Hrest]; subst.
    rewrite Hy in Hy'. injection Hy' as <-. f_equal. by apply IH.
Qed.

Section Properties.
Context `{!Random, !Runtime, !LLM}.

(** ** split_train_data *)

Lemma shuffle_tokenize_run self tok (ds : Dataset) (w : World) :
  tokenizer self = Some tok → Forall (well_formed self) ds →
  let p := (global_permutation (np_random w) (length ds)).1 in
  let w' := {| files := files w;
               np_random := (global_permutation (np_random w) (length ds)).2;
               trace := trace w |} in
  ∃ out,
    Forall2 (λ row o, tokenized_row self row = Ok o) (select p ds) out ∧
    ∀ A (k : Dataset → M A),
      (tr ← shuffle ds;
       tr ← lift (map_rows (tokenize_prompt self) tr);
       out ← lift (remove_columns ["input"; "instruction"; "output"] tr);
       k out) w = k out w'.
Proof.
  intros Htok Hwf p w'.
  assert (select p ds ≡ₚ ds) as Hp
    by apply select_Permutation, global_permutation_perm.
  assert (Forall (well_formed self) (select p ds)) as Hwf' by (by rewrite Hp).
  destruct (tokenize_remove_Ok _ _ _ Htok Hwf') as (tr & out & Htr & Hout & Hall).
  exists out. split; [done|]. intros A k.
  unfold mbind, M_bind, shuffle, lift. subst p w'.
  destruct (global_permutation (np_random w) (length ds)) as [p s].
  simpl in *. by rewrite Htr, Hout.
Qed.

Lemma split_train_data_whole_run self tok data (ds : Dataset) (w : World) :
  val_set_size self ≤ 0 →
  tokenizer self = Some tok →
  getsplit data "train" = Ok ds →
  Forall (well_formed self) ds →
  let g := global_permutation (np_random w) (length ds) in
  ∃ train,
    split_train_data self data w =
      Ok ((train, None),
          {| files := files w; np_random := g.2; trace := trace w |}) ∧
    Forall2 (λ row o, tokenized_row self row = Ok o) (select g.1 ds) train.
Proof.
  intros Hval Htok Hsplit Hwf g.
  destruct (shuffle_tokenize_run self tok ds w Htok Hwf) as (train & Hall & Hrun).
  exists train. split; [|done].
  unfold split_train_data.
  destruct (0 <? val_set_size self) eqn:E; [apply Z.ltb_lt in E; lia|].
  unfold mbind at 1, M_bind at 1, lift at 1. rewrite Hsplit.
  rewrite Hrun. reflexivity.
Qed.


Lemma seeded_split_indices seed (n k : nat) :
  let val_idx := take k (seeded_permutation seed n) in
  let train_idx := drop k (seeded_permutation seed n) in
  (train_idx ++ val_idx)%list ≡ₚ seq 0 n ∧
  NoDup (train_idx ++ val_idx)%list ∧
  (∀ i, i ∈ train_idx → i ∉ val_idx) ∧
  Forall (λ i, (i < n)%nat) train_idx ∧
  Forall (λ i, (i < n)%nat) val_idx.
Proof.
  intros val_idx train_idx.
  assert ((train_idx ++ val_idx)%list ≡ₚ seq 0 n) as Hp.
  { etrans; [apply Permutation_app_comm|]. subst val_idx train_idx.
    rewrite take_drop. apply seeded_permutation_perm. }
  assert (NoDup (train_idx ++ val_idx)%list) as Hnd.
  { rewrite Hp. apply NoDup_seq. }
  split; [done|]. split; [done|].
  apply NoDup_app in Hnd as (_ & Hdisj & _). split; [done|].
  apply Permutation_seq_bound in Hp. by apply Forall_app in Hp.
Qed.

Lemma split_train_data_run self tok data (ds : Dataset) (w : World) :
  0 < val_set_size self < Z.of_nat (length ds) →
  tokenizer self = Some tok →
  getsplit data "train" = Ok ds →
  Forall (well_formed self) ds →
  let k := Z.to_nat (val_set_size self) in
  let tr := select (drop k (seeded_permutation 42 (length ds))) ds in
  let te := select (take k (seeded_permutation 42 (length ds))) ds in
  let g1 := global_permutation (np_random w) (length tr) in
  let g2 := global_permutation g1.2 (length te) in
  ∃ train val,
    split_train_data self data w =
      Ok ((train, Some val),
          {| files := files w; np_random := g2.2; trace := trace w |}) ∧
    Forall2 (λ row o, tokenized_row self row = Ok o) (select g1.1 tr) train ∧
    Forall2 (λ row o, tokenized_row self row = Ok o) (select g2.1 te) val.
Proof.
  intros [Hlo Hhi] Htok Hsplit Hwf k tr te g1 g2.
  destruct (shuffle_tokenize_run self tok tr w Htok) as (train & Htrain & Hrun1).
  { by apply select_Forall. }
  destruct (shuffle_tokenize_run self tok te
              {| files := files w; np_random := g1.2; trace := trace w |} Htok)
    as (val & Hval & Hrun2).
  { by apply select_Forall. }
  exists train, val. split; [|done].
  unfold split_train_data.
  destruct (0 <? val_set_size self) eqn:E; [|apply Z.ltb_ge in E; lia].
  unfold mbind at 1, M_bind at 1, lift at 1. rewrite Hsplit.
  unfold mbind at 1, M_bind at 1, lift at 1, train_test_split.
  destruct (Z.of_nat (length ds) <=? val_set_size self) eqn:E1;
    [apply Z.leb_le in E1; lia|].
  destruct (val_set_size self <=? 0) eqn:E2; [apply Z.leb_le in E2; lia|].
  cbn [orb fst snd]. fold k. fold tr. fold te.
  rewrite Hrun1. rewrite Hrun2. reflexivity.
Qed.

(** C8 as amended. With a positive validation-set size below the row count
    the splitter cuts the rows, with the fixed seed 42, into a train and a
    validation part that share no row, that together hold every row once,
    and whose sizes add up to the row count: the validation part is made of
    the rows at the first [k] indices of the seeded permutation, the train
    part of the rows at the remaining ones.  Two runs on the same rows put
    the same rows into the same part, whatever the state of the unseeded
    generator; that generator only decides the order of the rows inside
    each part (first the train part is drawn, then, from the advanced
    state, the validation part), so runs that start from the same generator
    state return the same lists. *)
Theorem split_train_data_partition self tok data (ds : Dataset) (w1 w2 : World) :
  0 < val_set_size self < Z.of_nat (length ds) →
  tokenizer self = Some tok →
  getsplit data "train" = Ok ds →
  Forall (well_formed self) ds →
  let n := length ds in
  let k := Z.to_nat (val_set_size self) in
  let val_idx := take k (seeded_permutation 42 n) in
  let train_idx := drop k (seeded_permutation 42 n) in
  let g1 := global_permutation (np_random w1) (length (select train_idx ds)) in
  let g2 := global_permutation g1.2 (length (select val_idx ds)) in
  (train_idx ++ val_idx)%list ≡ₚ seq 0 n ∧
  NoDup (train_idx ++ val_idx)%list ∧
  (∀ i, i ∈ train_idx → i ∉ val_idx) ∧
  ∃ (train1 val1 train2 val2 : Dataset) (w1' w2' : World),
    split_train_data self data w1 = Ok ((train1, Some val1), w1') ∧
    split_train_data self data w2 = Ok ((train2, Some val2), w2') ∧
    Forall2 (λ row o, tokenized_row self row = Ok o)
      (select g1.1 (select train_idx ds)) train1 ∧
    Forall2 (λ row o, tokenized_row self row = Ok o)
      (select g2.1 (select val_idx ds)) val1 ∧
    np_random w1' = g2.2 ∧
    (∃ rows, rows ≡ₚ select train_idx ds ∧
             Forall2 (λ row o, tokenized_row self row = Ok o) rows train1) ∧
    (∃ rows, rows ≡ₚ select val_idx ds ∧
             Forall2 (λ row o, tokenized_row self row = Ok o) rows val1) ∧
    (length train1 + length val1 = n)%nat ∧
    length val1 = k ∧
    train1 ≡ₚ train2 ∧ val1 ≡ₚ val2 ∧
    (np_random w1 = np_random w2 → train1 = train2 ∧ val1 = val2).
Proof.
  intros Hk Htok Hsplit Hwf n k val_idx train_idx g1 g2.
  destruct (seeded_split_indices 42 n k) as (Hp & Hnd & Hdisj & Hbt & Hbv).
  fold val_idx train_idx in Hp, Hnd, Hdisj, Hbt, Hbv.
  split; [done|]. split; [done|]. split; [done|].
  destruct (split_train_data_run self tok data ds w1 Hk Htok Hsplit Hwf)
    as (train1 & val1 & Hrun1 & Ht1 & Hv1).
  destruct (split_train_data_run self tok data ds w2 Hk Htok Hsplit Hwf)
    as (train2 & val2 & Hrun2 & Ht2 & Hv2).
  fold n k in Ht1, Hv1, Ht2, Hv2. fold val_idx train_idx in Ht1, Hv1, Ht2, Hv2.
  set (tr := select train_idx ds) in *. set (te := select val_idx ds) in *.
  assert (∀ s m (l : Dataset), m = length l →
            select (global_permutation s m).1 l ≡ₚ l) as Hsh.
  { intros s m l ->. apply select_Permutation, global_permutation_perm. }
  assert (length tr = length train_idx) as Hlt by (by apply select_length).
  assert (length te = length val_idx) as Hlv by (by apply select_length).
  assert (length (seeded_permutation 42 n) = n) as Hlen.
  { by rewrite (Permutation_length (seeded_permutation_perm 42 n)), length_seq. }
  assert (length val_idx = k) as Hkv.
  { unfold val_idx. rewrite length_take. lia. }
  assert (length train_idx = (n - k)%nat) as Hkt.
  { unfold train_idx. rewrite length_drop. lia. }
  eexists train1, val1, train2, val2, _, _.
  split; [exact Hrun1|]. split; [exact Hrun2|].
  split; [exact Ht1|]. split; [exact Hv1|]. split; [reflexivity|].
  split; [eexists; split; [|exact Ht1]; by apply Hsh|].
  split; [eexists; split; [|exact Hv1]; by apply Hsh|].
  assert (length train1 = (n - k)%nat) as Hl1.
  { rewrite <- (Forall2_length _ _ _ Ht1), (Permutation_length (Hsh _ _ tr eq_refl)).
    lia. }
  assert (length val1 = k) as Hl2.
  { rewrite <- (Forall2_length _ _ _ Hv1), (Permutation_length (Hsh _ _ te eq_refl)).
    lia. }
  split; [unfold n in *; lia|]. split; [done|].
  split; [|split].
  - eapply Forall2_fun_Permutation; [|exact Ht1|exact Ht2].
    by rewrite !Hsh.
  - eapply Forall2_fun_Permutation; [|exact Hv1|exact Hv2].
    by rewrite !Hsh.
  - intros Heq. rewrite <- Heq in Ht2, Hv2. split.
    + eapply Forall2_fun_eq; [exact Ht1|exact Ht2].
    + eapply Forall2_fun_eq; [exact Hv1|exact Hv2].
Qed.

(** ** Errors and early returns *)

Lemma split_train_data_Raise self data (ds : Dataset) row out (w : World) :
  getsplit data "train" = Ok ds → row ∈ ds →
  row !! "output" = Some (VStr out) → out ∉ labels self →
  ∃ e, split_train_data self data w = Raise e.
Proof.
  intros Hsplit Hin Hout Hmem.
  assert (∀ (l : Dataset) s, row ∈ l →
            ∃ e, map_rows (tokenize_prompt self)
                   (select (global_permutation s (length l)).1 l) = Raise e) as Hraise.
  { intros l s Hl. eapply tokenize_Raise; [|done..].
    by rewrite select_Permutation by apply global_permutation_perm. }
  unfold split_train_data.
  destruct (0 <? val_set_size self).
  - unfold mbind at 1, M_bind at 1, lift at 1. rewrite Hsplit.
    unfold mbind at 1, M_bind at 1, lift at 1, train_test_split.
    destruct (_ || _); [by eauto|]. cbn [fst snd].
    set (k := Z.to_nat (val_set_size self)).
    set (tr := select (drop k _) ds). set (te := select (take k _) ds).
    assert (row ∈ tr ∨ row ∈ te) as Hcase.
    { apply elem_of_app. unfold tr, te. rewrite <- select_app.
      rewrite select_Permutation; [done|].
      etrans; [apply Permutation_app_comm|]. rewrite take_drop.
      apply seeded_permutation_perm. }
    unfold mbind, M_bind, lift, shuffle.
    destruct (global_permutation (np_random w) (length tr)) as [p1 s1] eqn:G1.
    pose proof (Hraise tr (np_random w)) as Hr1. rewrite G1 in Hr1.
    cbn [fst snd] in *.
    destruct (map_rows (tokenize_prompt self) (select p1 tr)) as [m1|] eqn:M1;
      [|by eauto].
    destruct (remove_columns _ m1); [|by eauto].
    cbn [np_random].
    destruct (global_permutation s1 (length te)) as [p2 s2] eqn:G2.
    pose proof (Hraise te s1) as Hr2. rewrite G2 in Hr2.
    cbn [fst snd] in *.
    destruct Hcase as [Hc|Hc].
    + destruct (Hr1 Hc) as [e He]. congruence.
    + destruct (Hr2 Hc) as [e ->]. by eauto.
  - unfold mbind at 1, M_bind at 1, lift at 1. rewrite Hsplit.
    unfold mbind, M_bind, lift, shuffle.
    pose proof (Hraise ds (np_random w) Hin) as [e He].
    destruct (global_permutation (np_random w) (length ds)) as [p s].
    cbn [fst snd] in *. rewrite He. by eauto.
Qed.

Lemma truthy_data_Splits (d : gmap string Dataset) k ds :
  d !! k = Some ds → truthy_data (Splits d) = true.
Proof.
  intros Hk. simpl. apply negb_true_iff, bool_decide_eq_false.
  intros ->. by rewrite lookup_empty in Hk.
Qed.

(** C2. An example whose [output] is not in the label vocabulary makes
    [tokenize_prompt] raise ([ValueError] from [list.index] once the text is
    tokenized), and nothing in the module catches it: the mapping over the
    dataset, [split_train_data] and [finetune] all end in an exception. *)
Theorem tokenize_prompt_unknown_label self (row : Row) out :
  row !! "output" = Some (VStr out) →
  out ∉ labels self →
  (∃ e, tokenize_prompt self row = Raise e) ∧
  (∀ tok text, tokenizer self = Some tok → row !! "input" = Some (VStr text) →
               tokenize_prompt self row = Raise ValueError) ∧
  (∀ ds : Dataset, row ∈ ds → ∃ e, map_rows (tokenize_prompt self) ds = Raise e) ∧
  (∀ data (ds : Dataset) (w : World),
     getsplit data "train" = Ok ds → row ∈ ds →
     ∃ e, split_train_data self data w = Raise e) ∧
  (∀ self0 fromdb iteration d (ds : Dataset) (w : World),
     (finetune_setup self0).1 = self →
     load_train_data self fromdb iteration = Splits d →
     d !! "train" = Some ds → row ∈ ds →
     ∃ e, finetune self0 fromdb iteration w = Raise e).
Proof.
  intros Hout Hmem. split; [|split; [|split; [|split]]].
  - destruct (tokenize_Raise self [row] row out) as [e He];
      [apply list_elem_of_here|done..|].
    unfold map_rows in He. simpl in He.
    destruct (tokenize_prompt self row); [simpl in He; done|by eauto].
  - intros tok text Htok Hin. unfold tokenize_prompt, getitem, self_tokenizer.
    rewrite Hin. simpl. rewrite Htok. simpl. rewrite Hout. simpl.
    by rewrite index_from_not_elem.
  - intros ds Hin. by eapply tokenize_Raise.
  - intros data ds w Hsplit Hin. by eapply split_train_data_Raise.
  - intros self0 fromdb iteration d ds w Hsetup Hload Hd Hin.
    unfold finetune. destruct (finetune_setup self0) as [self1 model1].
    simpl in Hsetup. subst self1. rewrite Hload.
    rewrite (truthy_data_Splits _ _ _ Hd). cbn [negb].
    destruct (split_train_data_Raise self (Splits d) ds row out w) as [e He];
      [by simpl; rewrite Hd|done..|].
    unfold mbind at 1, M_bind at 1. rewrite He. by eauto.
Qed.

(** ** Checkpoint resolution *)

Lemma truthy_VStr dir : truthy (VStr dir) = true ↔ dir ≠ "".
Proof.
  simpl. rewrite negb_true_iff. destruct (String.eqb_spec dir ""); split; congruence.
Qed.

Lemma resume_checkpoint_not_configured self model (w : World) :
  truthy (resume_from_checkpoint self) = false →
  resume_checkpoint self model w = Ok ((self, model), w).
Proof. intros Hf. unfold resume_checkpoint. by rewrite Hf. Qed.

Lemma resume_checkpoint_full self model (w : World) dir :
  resume_from_checkpoint self = VStr dir → dir ≠ "" →
  os_path_join dir "pytorch_model.bin" ∈ files w →
  let name := os_path_join dir "pytorch_model.bin" in
  resume_checkpoint self model w =
    Ok ((self, apply_op (SetPeftState name) model),
        {| files := files w; np_random := np_random w;
           trace := (trace w ++ [Printed ("Restarting from " +:+ name)])
                    ++ [TorchLoad name] |}).
Proof.
  intros Hdir Hne Hfull name. unfold resume_checkpoint.
  rewrite Hdir. rewrite (proj2 (truthy_VStr dir) Hne).
  unfold mbind, M_bind, lift, os_path_exists, print, emit, mret, M_ret. simpl.
  fold name. rewrite !bool_decide_eq_true_2 by done. simpl.
  rewrite !bool_decide_eq_true_2 by done. reflexivity.
Qed.

Lemma resume_checkpoint_adapter self model (w : World) dir :
  resume_from_checkpoint self = VStr dir → dir ≠ "" →
  os_path_join dir "pytorch_model.bin" ∉ files w →
  os_path_join dir "adapter_model.bin" ∈ files w →
  let name := os_path_join dir "adapter_model.bin" in
  resume_checkpoint self model w =
    Ok ((set_resume_from_checkpoint (VBool false) self,
         apply_op (SetPeftState name) model),
        {| files := files w; np_random := np_random w;
           trace := (trace w ++ [Printed ("Restarting from " +:+ name)])
                    ++ [TorchLoad name] |}).
Proof.
  intros Hdir Hne Hfull Hadapter name. unfold resume_checkpoint.
  rewrite Hdir. rewrite (proj2 (truthy_VStr dir) Hne).
  unfold mbind, M_bind, lift, os_path_exists, print, emit, mret, M_ret. simpl.
  rewrite bool_decide_eq_false_2 by done. simpl. fold name.
  rewrite !bool_decide_eq_true_2 by done. reflexivity.
Qed.

Lemma resume_checkpoint_missing self model (w : World) dir :
  resume_from_checkpoint self = VStr dir → dir ≠ "" →
  os_path_join dir "pytorch_model.bin" ∉ files w →
  os_path_join dir "adapter_model.bin" ∉ files w →
  let name := os_path_join dir "adapter_model.bin" in
  resume_checkpoint self model w =
    Ok ((set_resume_from_checkpoint (VBool false) self, model),
        {| files := files w; np_random := np_random w;
           trace := trace w ++ [Printed ("Checkpoint " +:+ name +:+ " not found")] |}).
Proof.
  intros Hdir Hne Hfull Hadapter name. unfold resume_checkpoint.
  rewrite Hdir. rewrite (proj2 (truthy_VStr dir) Hne).
  unfold mbind, M_bind, lift, os_path_exists, print, emit, mret, M_ret. simpl.
  rewrite bool_decide_eq_false_2 by done. simpl. fold name.
  rewrite !bool_decide_eq_false_2 by done. reflexivity.
Qed.

(** The outcome of checkpoint resolution in all cases: it returns, it
    touches no batch setting, it only prints and loads, and the flag it
    leaves is truthy exactly when a checkpoint directory was configured and
    holds [pytorch_model.bin]. *)
Lemma resume_checkpoint_total self model (w : World) :
  truthy (resume_from_checkpoint self) = false ∨
    (∃ dir, resume_from_checkpoint self = VStr dir) →
  ∃ self2 model2 (w2 : World) evs,
    resume_checkpoint self model w = Ok ((self2, model2), w2) ∧
    (self2 = self ∨ self2 = set_resume_from_checkpoint (VBool false) self) ∧
    trace w2 = (trace w ++ evs)%list ∧
    Forall (λ e, ∃ s, e = Printed s ∨ e = TorchLoad s) evs ∧
    (truthy (resume_from_checkpoint self2) = true ↔
     ∃ dir, resume_from_checkpoint self = VStr dir ∧ dir ≠ "" ∧
            os_path_join dir "pytorch_model.bin" ∈ files w).
Proof.
  intros Hcfg.
  destruct (truthy (resume_from_checkpoint self)) eqn:Ht.
  - destruct Hcfg as [|[dir Hdir]]; [done|].
    assert (dir ≠ "") as Hne by (apply truthy_VStr; by rewrite <- Hdir).
    destruct (decide (os_path_join dir "pytorch_model.bin" ∈ files w)) as [Hfull|Hfull].
    + eexists _, _, _, [_; _]. split; [by apply resume_checkpoint_full|].
      split; [by left|]. split; [by simpl; rewrite <- (assoc_L app)|].
      split; [repeat constructor; eauto|].
      rewrite Ht. split; [eauto|done].
    + assert (¬ ∃ dir', resume_from_checkpoint self = VStr dir' ∧ dir' ≠ "" ∧
                        os_path_join dir' "pytorch_model.bin" ∈ files w) as Hno.
      { intros (dir' & Hdir' & _ & Hin). congruence. }
      destruct (decide (os_path_join dir "adapter_model.bin" ∈ files w)).
      * eexists _, _, _, [_; _]. split; [by apply resume_checkpoint_adapter|].
        split; [by right|]. split; [by simpl; rewrite <- (assoc_L app)|].
        split; [repeat constructor; eauto|].
        simpl. split; [done|]. intros Hex. by destruct Hno.
      * eexists _, _, _, [_]. split; [by apply resume_checkpoint_missing|].
        split; [by right|]. split; [done|].
        split; [repeat constructor; eauto|].
        simpl. split; [done|]. intros Hex. by destruct Hno.
  - exists self, model, w, []. split; [by apply resume_checkpoint_not_configured|].
    split; [by left|]. split; [by rewrite app_nil_r|]. split; [constructor|].
    rewrite Ht. split; [done|].
    intros (dir & Hdir & Hne & _). rewrite Hdir in Ht.
    apply truthy_VStr in Hne. congruence.
Qed.

(** C4. When the configured checkpoint directory holds [adapter_model.bin]
    and no [pytorch_model.bin], checkpoint resolution leaves the resume flag
    false, and still loads that file and installs its weights in the model:
    the model it returns is the given one with [set_peft_model_state_dict]
    of that file as the last thing done to it, and the file is read by
    [torch.load] right after the message that names it. *)
Theorem resume_checkpoint_adapter_only self model (w : World) dir :
  resume_from_checkpoint self = VStr dir →
  dir ≠ "" →
  os_path_join dir "pytorch_model.bin" ∉ files w →
  os_path_join dir "adapter_model.bin" ∈ files w →
  ∃ self2 model2 (w2 : World),
    resume_checkpoint self model w = Ok ((self2, model2), w2) ∧
    resume_from_checkpoint self2 = VBool false ∧
    truthy (resume_from_checkpoint self2) = false ∧
    ops model2 =
      (ops model ++ [SetPeftState (os_path_join dir "adapter_model.bin")])%list ∧
    SetPeftState (os_path_join dir "adapter_model.bin") ∈ ops model2 ∧
    pretrained model2 = pretrained model ∧
    trace w2 =
      (trace w ++
       [Printed ("Restarting from " +:+ os_path_join dir "adapter_model.bin");
        TorchLoad (os_path_join dir "adapter_model.bin")])%list ∧
    model2 = apply_op (SetPeftState (os_path_join dir "adapter_model.bin")) model ∧
    TorchLoad (os_path_join dir "adapter_model.bin") ∈ trace w2 ∧
    (∀ name, SetPeftState name ∈ ops model2 →
             SetPeftState name ∈ ops model ∨
             name = os_path_join dir "adapter_model.bin").
Proof.
  intros Hdir Hne Hfull Hadapter.
  eexists _, _, _. split; [by apply resume_checkpoint_adapter|].
  split; [done|]. split; [done|]. split; [done|].
  split; [simpl; apply elem_of_app; right; apply list_elem_of_here|].
  split; [done|].
  split; [by simpl; rewrite <- (assoc_L app)|].
  split; [done|]. split.
  - simpl. apply elem_of_app. right. apply list_elem_of_here.
  - simpl. intros name [Hin|Hin%list_elem_of_singleton]%elem_of_app; [by left|].
    right. congruence.
Qed.

(** ** The whole of finetune *)

Lemma finetune_setup_tokenizer self :
  ∃ tok, tokenizer (finetune_setup self).1 = Some tok.
Proof.
  unfold finetune_setup. destruct (get_model_tokenizer _) as [model tok].
  by exists tok.
Qed.

Lemma split_train_data_total self tok data (ds : Dataset) (w : World) :
  tokenizer self = Some tok →
  getsplit data "train" = Ok ds →
  Forall (well_formed self) ds →
  val_set_size self ≤ 0 ∨ val_set_size self < Z.of_nat (length ds) →
  ∃ train val (w1 : World),
    split_train_data self data w = Ok ((train, val), w1) ∧
    files w1 = files w ∧ trace w1 = trace w ∧
    (length train ≤ length ds)%nat.
Proof.
  intros Htok Hsplit Hwf Hval.
  destruct (decide (val_set_size self ≤ 0)) as [Hle|Hgt].
  - destruct (split_train_data_whole_run self tok data ds w) as (train & Hrun & Hall);
      [done..|].
    eexists train, None, _. split; [exact Hrun|]. split; [done|]. split; [done|].
    rewrite <- (Forall2_length _ _ _ Hall).
    rewrite select_length; [|by apply Permutation_seq_bound, global_permutation_perm].
    by rewrite (Permutation_length (global_permutation_perm _ _)), length_seq.
  - destruct (split_train_data_run self tok data ds w) as (train & val & Hrun & Hall & _);
      [lia|done..|].
    eexists train, (Some val), _. split; [exact Hrun|]. split; [done|]. split; [done|].
    rewrite <- (Forall2_length _ _ _ Hall).
    destruct (seeded_split_indices 42 (length ds) (Z.to_nat (val_set_size self)))
      as (_ & _ & _ & Hbt & _).
    set (tr := select _ ds) in *.
    rewrite select_length; [|by apply Permutation_seq_bound, global_permutation_perm].
    rewrite (Permutation_length (global_permutation_perm _ _)), length_seq.
    unfold tr. rewrite select_length by done. rewrite length_drop.
    rewrite (Permutation_length (seeded_permutation_perm _ _)), length_seq. lia.
Qed.

Lemma finetune_run self fromdb iteration (w : World) d (ds : Dataset) :
  let self1 := (finetune_setup self).1 in
  let model1 := (finetune_setup self).2 in
  load_train_data self1 fromdb iteration = Splits d →
  d !! "train" = Some ds →
  Forall (well_formed self1) ds →
  val_set_size self1 ≤ 0 ∨ val_set_size self1 < Z.of_nat (length ds) →
  truthy (resume_from_checkpoint self1) = false ∨
    (∃ dir, resume_from_checkpoint self1 = VStr dir) →
  0 < per_gpu_train_batch_size self1 →
  0 < gradient_accumulation_steps self1 →
  (ddp self1 = true → 0 < world_size self1) →
  Z.of_nat (length ds) < 2 ^ 53 →
  ∃ train val (w1 : World) self2 model2 (w2 : World) s t1 t2 m,
    split_train_data self1 (Splits d) w = Ok ((train, val), w1) ∧
    files w1 = files w ∧ trace w1 = trace w ∧
    resume_checkpoint self1 model1 w1 = Ok ((self2, model2), w2) ∧
    schedule self2 (Z.of_nat (length train)) = Ok s ∧
    tr_model t1 = model2 ∧ tr_model t2 = apply_op NoCache model2 ∧
    train_dataset t2 = train ∧ eval_dataset t2 = val ∧
    args t2 = training_arguments self2 s ∧
    finetune self fromdb iteration w =
      Ok (self2,
          {| files := files w2; np_random := np_random w2;
             trace := (trace w2 ++
                       [NewTrainer t1; Train t2 (resume_from_checkpoint self2);
                        SavePretrained m (output_dir self2);
                        Printed (String "010"%char
                          " If there's a warning about missing keys above, please disregard :)")])%list |}).
Proof.
  intros self1 model1 Hload Hd Hwf Hval Hres Hb Ha Hw Hrows.
  destruct (finetune_setup_tokenizer self) as [tok Htok]. fold self1 in Htok.
  destruct (split_train_data_total self1 tok (Splits d) ds w)
    as (train & val & w1 & Hsplit & Hf1 & Ht1 & Hlen); [done|by simpl; rewrite Hd|done..|].
  destruct (resume_checkpoint_total self1 model1 w1 Hres)
    as (self2 & model2 & w2 & evs & Hrc & Hself2 & _).
  assert (∃ s, schedule self2 (Z.of_nat (length train)) = Ok s) as [s Hs].
  { eexists. apply schedule_value; [|lia].
    assert (0 < per_gpu_train_batch_size self2 ∧
            0 < gradient_accumulation_steps self2 ∧
            (ddp self2 = true → 0 < world_size self2)) as (Hb2 & Ha2 & Hw2)
      by (by destruct Hself2 as [->| ->]).
    destruct (ddp self2); [specialize (Hw2 eq_refl)|]; nia. }
  exists train, val, w1, self2, model2, w2, s,
    {| tr_model := model2; train_dataset := train; eval_dataset := val;
       args := training_arguments self2 s; data_collator := tokenizer self2 |},
    {| tr_model := apply_op NoCache model2; train_dataset := train;
       eval_dataset := val; args := training_arguments self2 s;
       data_collator := tokenizer self2 |},
    (if String.leb "2" torch_version && negb (String.eqb sys_platform "win32")
     then apply_op Compile (apply_op NoCache model2)
     else apply_op NoCache model2).
  split; [done|]. split; [done|]. split; [done|]. split; [done|]. split; [done|].
  do 5 (split; [reflexivity|]).
  unfold finetune. subst self1 model1.
  destruct (finetune_setup self) as [self1 model1]. cbn [fst snd] in *.
  rewrite Hload, (truthy_data_Splits _ _ _ Hd). cbn [negb].
  unfold mbind at 1, M_bind at 1. rewrite Hsplit.
  unfold mbind at 1, M_bind at 1. rewrite Hrc.
  unfold mbind at 1, M_bind at 1, lift at 1. rewrite Hs.
  unfold mbind, M_bind, print, emit, mret, M_ret. cbn [files np_random trace].
  rewrite <- !(assoc_L app). reflexivity.
Qed.

(** C10. The value [finetune] hands to [trainer.train] as
    [resume_from_checkpoint] is the flag left by checkpoint resolution; it
    is truthy exactly when a checkpoint directory was configured and
    [pytorch_model.bin] exists in it, and falsy when nothing was configured
    or the directory holds only [adapter_model.bin] or neither file. *)
Theorem finetune_resume_argument self fromdb iteration (w : World) d (ds : Dataset) :
  let self1 := (finetune_setup self).1 in
  load_train_data self1 fromdb iteration = Splits d →
  d !! "train" = Some ds →
  Forall (well_formed self1) ds →
  val_set_size self1 ≤ 0 ∨ val_set_size self1 < Z.of_nat (length ds) →
  truthy (resume_from_checkpoint self1) = false ∨
    (∃ dir, resume_from_checkpoint self1 = VStr dir) →
  0 < per_gpu_train_batch_size self1 →
  0 < gradient_accumulation_steps self1 →
  (ddp self1 = true → 0 < world_size self1) →
  Z.of_nat (length ds) < 2 ^ 53 →
  ∃ self2 (w2 : World) before trainer resume after,
    finetune self fromdb iteration w = Ok (self2, w2) ∧
    trace w2 = (trace w ++ before ++ Train trainer resume :: after)%list ∧
    (∀ t r, (Train t r ∉ before) ∧ (Train t r ∉ after)) ∧
    (truthy resume = true ↔
     ∃ dir, resume_from_checkpoint self1 = VStr dir ∧ dir ≠ "" ∧
            os_path_join dir "pytorch_model.bin" ∈ files w) ∧
    (truthy (resume_from_checkpoint self1) = false → truthy resume = false) ∧
    (∀ dir, resume_from_checkpoint self1 = VStr dir →
            os_path_join dir "pytorch_model.bin" ∉ files w →
            truthy resume = false).
Proof.
  intros self1 Hload Hd Hwf Hval Hres Hb Ha Hw Hrows.
  destruct (finetune_run self fromdb iteration w d ds)
    as (train & val & w1 & self2 & model2 & w2 & s & t1 & t2 & m &
        Hsplit & Hf1 & Ht1 & Hrc & _ & _ & _ & _ & _ & _ & Hrun); [done..|].
  fold self1 in Hsplit, Hrc.
  destruct (resume_checkpoint_total self1 (finetune_setup self).2 w1 Hres)
    as (self2' & model2' & w2' & evs & Hrc' & _ & Htr & Hevs & Hiff).
  rewrite Hrc in Hrc'. injection Hrc' as <- <- <-.
  rewrite Hf1 in Hiff. rewrite Ht1 in Htr.
  assert (∀ t r, Train t r ∉ evs) as Hno.
  { intros t r Hin. rewrite Forall_forall in Hevs.
    destruct (Hevs _ Hin) as [x [?|?]]; done. }
  eexists self2, _, (evs ++ [NewTrainer t1])%list, t2, _, [_; _].
  split; [exact Hrun|]. split.
  { cbn [trace]. rewrite Htr. by rewrite <- !(assoc_L app). }
  split.
  { intros t r. split.
    - intros [Hin|Hin%list_elem_of_singleton]%elem_of_app; [by eapply Hno|done].
    - intros Hin. apply elem_of_cons in Hin as [|Hin%list_elem_of_singleton]; done. }
  split; [exact Hiff|]. split.
  - intros Hf. apply not_true_is_false. intros Ht. apply Hiff in Ht as (dir & Hdir & Hne & _).
    rewrite Hdir in Hf. apply truthy_VStr in Hne. congruence.
  - intros dir Hdir Hnot. apply not_true_is_false. intros Ht.
    apply Hiff in Ht as (dir' & Hdir' & _ & Hin). congruence.
Qed.

(** The adapter-only checkpoint on a whole run of [finetune]: the trainer
    is built on a model that holds the adapter weights, and is started
    without resuming. *)
Lemma finetune_adapter_only self fromdb iteration (w : World) d (ds : Dataset) dir :
  let self1 := (finetune_setup self).1 in
  load_train_data self1 fromdb iteration = Splits d →
  d !! "train" = Some ds →
  Forall (well_formed self1) ds →
  val_set_size self1 ≤ 0 ∨ val_set_size self1 < Z.of_nat (length ds) →
  resume_from_checkpoint self1 = VStr dir →
  dir ≠ "" →
  os_path_join dir "pytorch_model.bin" ∉ files w →
  os_path_join dir "adapter_model.bin" ∈ files w →
  0 < per_gpu_train_batch_size self1 →
  0 < gradient_accumulation_steps self1 →
  (ddp self1 = true → 0 < world_size self1) →
  Z.of_nat (length ds) < 2 ^ 53 →
  ∃ self2 (w2 : World) t1 t2,
    finetune self fromdb iteration w = Ok (self2, w2) ∧
    NewTrainer t1 ∈ trace w2 ∧
    Train t2 (VBool false) ∈ trace w2 ∧
    SetPeftState (os_path_join dir "adapter_model.bin") ∈ ops (tr_model t1) ∧
    SetPeftState (os_path_join dir "adapter_model.bin") ∈ ops (tr_model t2).
Proof.
  intros self1 Hload Hd Hwf Hval Hdir Hne Hfull Hadapter Hb Ha Hw Hrows.
  destruct (finetune_run self fromdb iteration w d ds)
    as (train & val & w1 & self2 & model2 & w2 & s & t1 & t2 & m &
        Hsplit & Hf1 & Ht1 & Hrc & _ & Hm1 & Hm2 & _ & _ & _ & Hrun);
    [done|done|done|done|by eauto|done|done|done|done|].
  fold self1 in Hrc. rewrite <- Hf1 in Hfull, Hadapter.
  rewrite (resume_checkpoint_adapter self1 _ w1 dir) in Hrc by done.
  injection Hrc as <- <- <-.
  exists (set_resume_from_checkpoint (VBool false) self1). eexists _, t1, t2.
  split; [exact Hrun|]. cbn [trace resume_from_checkpoint set_resume_from_checkpoint].
  split; [apply elem_of_app; right; apply list_elem_of_here|].
  split; [apply elem_of_app; right; apply list_elem_of_further, list_elem_of_here|].
  rewrite Hm1, Hm2. cbn [apply_op ops].
  split; [|apply elem_of_app; left]; apply elem_of_app; right; apply list_elem_of_here.
Qed.

(** ** generate *)

(** C6 as amended. The adapter is left out exactly when the configured
    adapter path is the string [None] (capital N, as the command line
    writes an absent path); any other path, [none] included, is layered on
    the base model. *)
Theorem inference_model_adapter self :
  let self1 := auto_device self in
  ((∀ p, PeftFromPretrained p ∉ ops (inference_model self).2) ↔
   adapter_weights self1 = "None") ∧
  (adapter_weights self1 ≠ "None" →
   PeftFromPretrained (adapter_weights self1) ∈ ops (inference_model self).2).
Proof.
  intros self1. unfold inference_model. fold self1.
  destruct (get_model_tokenizer self1) as [model tok] eqn:Hm.
  assert (ops model = []) as Hops.
  { unfold get_model_tokenizer in Hm. by injection Hm as <- _. }
  cbn [snd adapter_weights set_tokenizer load_8bit device].
  destruct (String.eqb_spec (adapter_weights self1) "None") as [Heq|Hne];
    cbn [negb].
  - split; [|done]. split; [done|]. intros _ p Hin.
    destruct (load_8bit self1); cbn [negb apply_op ops] in Hin;
      rewrite Hops in Hin; simpl in Hin;
      repeat (apply elem_of_cons in Hin as [Hin|Hin]; [done|]);
      by apply elem_of_nil in Hin.
  - assert (PeftFromPretrained (adapter_weights self1) ∈
            ops (apply_op EvalMode (apply_op (To (device self1))
                   (if negb (load_8bit self1)
                    then apply_op Half
                           (apply_op (PeftFromPretrained (adapter_weights self1)) model)
                    else apply_op (PeftFromPretrained (adapter_weights self1)) model))))
      as Hin.
    { destruct (load_8bit self1); cbn [negb apply_op ops]; rewrite Hops; simpl;
        apply list_elem_of_here. }
    split; [|done]. split; [|done]. intros Hall. by destruct (Hall _ Hin).
Qed.

End Properties.

(** ** The properties on the concrete instance *)

Lemma example_well_formed self input instruction output :
  output ∈ labels self → well_formed self (example input instruction output).
Proof.
  intros Hin. unfold well_formed, example. split; [|split].
  - exists input. by rewrite lookup_insert_eq.
  - rewrite lookup_insert_ne, lookup_insert_eq by done. eauto.
  - exists output. split; [|done].
    rewrite !lookup_insert_ne by done. by rewrite lookup_insert_eq.
Qed.

Lemma demo_rows_well_formed self :
  labels self = ["positive"; "negative"] → Forall (well_formed self) demo_rows.
Proof.
  intros Hl. unfold demo_rows.
  repeat apply Forall_cons_2; [..|apply Forall_nil_2];
    apply example_well_formed; rewrite Hl;
    repeat first [apply list_elem_of_here | apply list_elem_of_further].
Qed.


Lemma split_train_data_partition_witness :
  let self := with_val_set_size 1 demo_self in
  let data := Splits {["train" := demo_rows]} in
  let val_idx := take 1 (@seeded_permutation demo_random 42 3) in
  let train_idx := drop 1 (@seeded_permutation demo_random 42 3) in
  (train_idx ++ val_idx)%list ≡ₚ seq 0 3 ∧
  NoDup (train_idx ++ val_idx)%list ∧
  (∀ i, i ∈ train_idx → i ∉ val_idx) ∧
  ∃ (train1 val1 train2 val2 : Dataset) (w1' w2' : @World demo_random),
    split_train_data self data (demo_world ∅ 0) = Ok ((train1, Some val1), w1') ∧
    split_train_data self data (demo_world ∅ 1) = Ok ((train2, Some val2), w2') ∧
    Forall2 (λ row o, tokenized_row self row = Ok o)
      [example "bad" "classify" "negative"; example "good" "classify" "positive"]
      train1 ∧
    Forall2 (λ row o, tokenized_row self row = Ok o)
      [example "fine" "classify" "positive"] val1 ∧
    np_random w1' = 2%nat ∧
    (∃ rows, rows ≡ₚ select train_idx demo_rows ∧
             Forall2 (λ row o, tokenized_row self row = Ok o) rows train1) ∧
    (∃ rows, rows ≡ₚ select val_idx demo_rows ∧
             Forall2 (λ row o, tokenized_row self row = Ok o) rows val1) ∧
    (length train1 + length val1 = 3)%nat ∧
    length val1 = 1%nat ∧
    train1 ≡ₚ train2 ∧ val1 ≡ₚ val2 ∧
    (np_random (demo_world ∅ 0) = np_random (demo_world ∅ 1) →
     train1 = train2 ∧ val1 = val2).
Proof.
  intros self data.
  apply (@split_train_data_partition demo_random self demo_tokenizer data
           demo_rows (demo_world ∅ 0) (demo_world ∅ 1)).
  - simpl. lia.
  - reflexivity.
  - simpl. by rewrite lookup_singleton_eq.
  - by apply demo_rows_well_formed.
Defined.

Lemma tokenize_prompt_unknown_label_witness :
  let row := example "meh" "classify" "neutral" in
  let H1 := demo_llm (Splits {["train" := [row]]}) [] in
  let self := (@finetune_setup demo_runtime H1 demo_self).1 in
  (∃ e, tokenize_prompt self row = Raise e) ∧
  tokenize_prompt self row = Raise ValueError ∧
  (∃ e, @split_train_data demo_random self (Splits {["train" := [row]]})
          (demo_world ∅ 0) = Raise e) ∧
  (∃ e, @finetune demo_random demo_runtime H1 demo_self VNone VNone
          (demo_world ∅ 0) = Raise e).
Proof.
  intros row H1 self.
  destruct (@tokenize_prompt_unknown_label demo_random demo_runtime H1
              self row "neutral") as (Hraise & Hval & _ & Hsplit & Hfine).
  - unfold row, example. rewrite !lookup_insert_ne by done.
    by rewrite lookup_insert_eq.
  - simpl. intros Hin.
    repeat (apply elem_of_cons in Hin as [Hin|Hin]; [discriminate|]).
    by apply elem_of_nil in Hin.
  - split; [exact Hraise|]. split; [|split].
    + apply (Hval (set_pad_token (Some "</s>") demo_tokenizer) "meh");
        [reflexivity|].
      unfold row, example. by rewrite lookup_insert_eq.
    + apply (Hsplit _ [row]); [|apply list_elem_of_here].
      simpl. by rewrite lookup_singleton_eq.
    + apply (Hfine demo_self VNone VNone {["train" := [row]]} [row]).
      * reflexivity.
      * reflexivity.
      * by rewrite lookup_singleton_eq.
      * apply list_elem_of_here.
Defined.

Lemma resume_checkpoint_adapter_only_witness :
  ∃ self2 model2 (w2 : @World demo_random),
    resume_checkpoint (set_resume_from_checkpoint (VStr "ckpt") demo_self)
      demo_model (demo_world {["ckpt/adapter_model.bin"]} 0)
    = Ok ((self2, model2), w2) ∧
    resume_from_checkpoint self2 = VBool false ∧
    ops model2 = [SetPeftState "ckpt/adapter_model.bin"] ∧
    trace w2 = [Printed "Restarting from ckpt/adapter_model.bin";
                TorchLoad "ckpt/adapter_model.bin"].
Proof.
  destruct (@resume_checkpoint_adapter_only demo_random
              (set_resume_from_checkpoint (VStr "ckpt") demo_self) demo_model
              (demo_world {["ckpt/adapter_model.bin"]} 0) "ckpt")
    as (self2 & model2 & w2 & Hrun & Hflag & _ & Hmodel & _ & _ & Hload & _).
  - reflexivity.
  - discriminate.
  - change (os_path_join "ckpt" "pytorch_model.bin") with "ckpt/pytorch_model.bin".
    simpl. rewrite elem_of_singleton. discriminate.
  - change (os_path_join "ckpt" "adapter_model.bin") with "ckpt/adapter_model.bin".
    simpl. by apply elem_of_singleton.
  - exists self2, model2, w2. split; [exact Hrun|]. split; [exact Hflag|].
    split; [exact Hmodel | exact Hload].
Defined.

Lemma finetune_resume_argument_witness :
  let H1 := demo_llm (Splits {["train" := demo_rows]}) [] in
  let self := set_resume_from_checkpoint (VStr "ckpt") demo_self in
  let w := demo_world {["ckpt/pytorch_model.bin"]} 0 in
  ∃ self2 (w2 : @World demo_random) before trainer resume after,
    @finetune demo_random demo_runtime H1 self VNone VNone w = Ok (self2, w2) ∧
    trace w2 = (trace w ++ before ++ Train trainer resume :: after)%list ∧
    truthy resume = true.
Proof.
  intros H1 self w.
  destruct (@finetune_resume_argument demo_random demo_runtime H1 self VNone VNone
              w {["train" := demo_rows]} demo_rows)
    as (self2 & w2 & before & trainer & resume & after & Hrun & Htrace & _ & Hiff & _).
  - reflexivity.
  - by rewrite lookup_singleton_eq.
  - by apply demo_rows_well_formed.
  - left. simpl. lia.
  - right. by exists "ckpt".
  - simpl. lia.
  - simpl. lia.
  - discriminate.
  - simpl. lia.
  - exists self2, w2, before, trainer, resume, after.
    split; [exact Hrun|]. split; [exact Htrace|].
    apply Hiff. exists "ckpt". split; [reflexivity|]. split; [discriminate|].
    change (os_path_join "ckpt" "pytorch_model.bin") with "ckpt/pytorch_model.bin".
    simpl. by apply elem_of_singleton.
Defined.

(** C6 as stated fails: with the adapter path [none] in lower case the
    adapter is layered on the base model, so skipping does not coincide
    with the path being [none]. *)
Lemma inference_model_lowercase_none :
  ¬ (∀ self : LLAMAClassify,
       (∀ p, PeftFromPretrained p ∉
               ops (@inference_model demo_runtime (demo_llm NoData []) self).2) ↔
       adapter_weights (@auto_device (demo_llm NoData []) self) = "none").
Proof.
  intros Hclaim.
  destruct (Hclaim (with_adapter_weights "none" demo_self)) as [_ Hskip].
  apply (Hskip eq_refl "none"). simpl. apply list_elem_of_here.
Qed.

(** * Further properties of the module *)

(** ** tokenize_prompt: what a tokenized record holds *)

Lemma tokenize_prompt_inv self (data_point res : Row) :
  tokenize_prompt self data_point = Ok res →
  ∃ tok text out i,
    tokenizer self = Some tok ∧
    data_point !! "input" = Some (VStr text) ∧
    data_point !! "output" = Some (VStr out) ∧
    index_from (labels self) out 0 = Ok i ∧
    res = <["labels" := tensor i]>
          (<["attention_mask" :=
               VList (replicate (length (take (model_max_length tok) (tokens tok text))) 1)]>
           (<["input_ids" := VList (take (model_max_length tok) (tokens tok text))]> ∅)).
Proof.
  unfold tokenize_prompt, getitem, self_tokenizer.
  destruct (data_point !! "input") as [v|]; simpl; [|done].
  destruct (tokenizer self) as [tok|]; simpl; [|done].
  destruct v as [| | |text|]; simpl; try done.
  destruct (data_point !! "output") as [[| | |out|]|]; simpl; try done.
  destruct (index_from (labels self) out 0) as [i|] eqn:Hi; simpl; [|done].
  intros [= <-]. by exists tok, text, out, i.
Qed.

(** X1. A record that [tokenize_prompt] returns has exactly the columns
    [input_ids], [attention_mask] and [labels]: the ids are the tokens of
    the input cut at the model's maximal length, the mask has one 1 per id
    (nothing is padded), and the label is an index into the vocabulary. *)
Theorem tokenize_prompt_record self (data_point res : Row) :
  tokenize_prompt self data_point = Ok res →
  ∃ tok text ids i,
    tokenizer self = Some tok ∧
    data_point !! "input" = Some (VStr text) ∧
    ids = take (model_max_length tok) (tokens tok text) ∧
    (length ids ≤ model_max_length tok)%nat ∧
    res !! "input_ids" = Some (VList ids) ∧
    res !! "attention_mask" = Some (VList (replicate (length ids) 1)) ∧
    res !! "labels" = Some (VInt (Z.of_nat i)) ∧
    (i < length (labels self))%nat ∧
    dom res = ({["input_ids"; "attention_mask"; "labels"]} : gset string).
Proof.
  intros (tok & text & out & i & Htok & Hin & Hout & Hi & ->)%tokenize_prompt_inv.
  apply index_from_Ok in Hi as (j & -> & Hj & _).
  eexists tok, text, _, j. split; [done|]. split; [done|]. split; [done|].
  split; [rewrite length_take; lia|].
  split; [by rewrite !lookup_insert_ne, lookup_insert_eq by done|].
  split; [by rewrite lookup_insert_ne, lookup_insert_eq by done|].
  split; [by rewrite lookup_insert_eq|].
  split; [by eapply lookup_lt_Some|].
  rewrite !dom_insert_L, dom_empty_L. set_solver.
Qed.

Lemma tokenize_prompt_record_witness :
  ∃ tok text ids i,
    tokenizer demo_self = Some tok ∧
    example "splendid" "classify" "negative" !! "input" = Some (VStr text) ∧
    ids = take (model_max_length tok) (tokens tok text) ∧
    (length ids ≤ model_max_length tok)%nat ∧
    demo_record !! "input_ids" = Some (VList ids) ∧
    demo_record !! "attention_mask" = Some (VList (replicate (length ids) 1)) ∧
    demo_record !! "labels" = Some (VInt (Z.of_nat i)) ∧
    (i < length (labels demo_self))%nat ∧
    dom demo_record = ({["input_ids"; "attention_mask"; "labels"]} : gset string).
Proof.
  apply (tokenize_prompt_record demo_self
           (example "splendid" "classify" "negative") demo_record).
  vm_compute. reflexivity.
Defined.

(** X2. The columns an example lacks surface as [KeyError]s, in the order
    the method reads them: a missing [input] before anything else, a
    missing [output] only after the text went through the tokenizer; and a
    call before [finetune] or [generate] has set the tokenizer is a
    [TypeError]. *)
Theorem tokenize_prompt_missing_column self (data_point : Row) :
  (data_point !! "input" = None →
   tokenize_prompt self data_point = Raise (KeyError "input")) ∧
  (∀ v, data_point !! "input" = Some v → tokenizer self = None →
        tokenize_prompt self data_point = Raise TypeError) ∧
  (∀ tok text, data_point !! "input" = Some (VStr text) →
               tokenizer self = Some tok →
               data_point !! "output" = None →
               tokenize_prompt self data_point = Raise (KeyError "output")).
Proof.
  unfold tokenize_prompt, getitem, self_tokenizer. repeat split.
  - by intros ->.
  - intros v -> ->. done.
  - intros tok text -> -> ->. done.
Qed.

Lemma index_from_NoDup l s j :
  NoDup l → l !! j = Some s → index_from l s 0 = Ok j.
Proof.
  intros Hnd Hj.
  destruct (index_from_elem l s 0%nat) as [i Hi]; [by eapply list_elem_of_lookup_2|].
  destruct (index_from_Ok _ _ _ _ Hi) as (i' & -> & Hi' & _).
  by rewrite (NoDup_lookup _ _ _ _ Hnd Hi' Hj) in Hi.
Qed.

Section Further.
Context `{!Random, !Runtime, !LLM}.

(** ** evaluate *)

Lemma evaluate_inv self model input l :
  evaluate self model input = Ok l →
  ∃ tok text,
    tokenizer self = Some tok ∧ input = VStr text ∧
    labels self !!
      argmax_logits model
        (<["attention_mask" := VList (replicate (length (tokens tok text)) 1)]>
           (<["input_ids" := VList (tokens tok text)]> ∅)) = Some l.
Proof.
  unfold evaluate, self_tokenizer.
  destruct (tokenizer self) as [tok|]; simpl; [|done].
  destruct input as [| | |text|]; simpl; try done.
  destruct (labels self !! _) as [l'|] eqn:Hl; [|done].
  intros [= <-]. by exists tok, text.
Qed.

(** X3. What [evaluate] returns is a name of the label vocabulary, the one
    at the arg-max index; the model is run on all the tokens of the text,
    which, unlike in [tokenize_prompt], are not cut at the model's maximal
    length. *)
Theorem evaluate_label self model input l :
  evaluate self model input = Ok l →
  l ∈ labels self ∧
  ∃ tok text,
    tokenizer self = Some tok ∧ input = VStr text ∧
    labels self !!
      argmax_logits model
        (<["attention_mask" := VList (replicate (length (tokens tok text)) 1)]>
           (<["input_ids" := VList (tokens tok text)]> ∅)) = Some l.
Proof.
  intros (tok & text & Htok & -> & Hl)%evaluate_inv.
  split; [by eapply list_elem_of_lookup_2|]. by exists tok, text.
Qed.

(** X4. [evaluate] has two failures of its own: it is a [TypeError] while
    no tokenizer is set, and an [IndexError] when the arg-max index is not
    below the number of labels (a classification head wider than the
    vocabulary). *)
Theorem evaluate_errors self model :
  (∀ input, tokenizer self = None → evaluate self model input = Raise TypeError) ∧
  (∀ tok text idx,
     tokenizer self = Some tok →
     idx = argmax_logits model
             (<["attention_mask" := VList (replicate (length (tokens tok text)) 1)]>
                (<["input_ids" := VList (tokens tok text)]> ∅)) →
     (length (labels self) ≤ idx)%nat →
     evaluate self model (VStr text) = Raise IndexError).
Proof.
  unfold evaluate, self_tokenizer. split.
  - by intros input ->.
  - intros tok text idx -> -> Hge. simpl. by rewrite lookup_ge_None_2.
Qed.

(** X5. With a vocabulary that repeats no name, prediction and tokenization
    agree on the numbering: the name [evaluate] returns for the arg-max
    index is given that very index as its label by [tokenize_prompt]. *)
Theorem evaluate_tokenize_round_trip self model input l (row res : Row) :
  NoDup (labels self) →
  evaluate self model input = Ok l →
  row !! "output" = Some (VStr l) →
  tokenize_prompt self row = Ok res →
  ∃ tok text,
    tokenizer self = Some tok ∧ input = VStr text ∧
    res !! "labels" =
      Some (VInt (Z.of_nat
        (argmax_logits model
           (<["attention_mask" := VList (replicate (length (tokens tok text)) 1)]>
              (<["input_ids" := VList (tokens tok text)]> ∅))))).
Proof.
  intros Hnd (tok & text & Htok & -> & Hl)%evaluate_inv Hout
    (tok' & text' & out & i & _ & _ & Hout' & Hi & ->)%tokenize_prompt_inv.
  exists tok, text. split; [done|]. split; [done|].
  rewrite Hout in Hout'. injection Hout' as <-.
  rewrite (index_from_NoDup _ _ _ Hnd Hl) in Hi. injection Hi as <-.
  by rewrite lookup_insert_eq.
Qed.

(** ** Reading a returned result backwards *)

Lemma bind_Ok {A B} (m : M A) (f : A → M B) (w : World) r :
  (m ≫= f) w = Ok r → ∃ a w1, m w = Ok (a, w1) ∧ f a w1 = Ok r.
Proof. unfold mbind, M_bind. destruct (m w) as [[a w1]|]; [eauto|done]. Qed.

Lemma lift_Ok {A} (r : result A) (w w' : World) a :
  lift r w = Ok (a, w') → r = Ok a ∧ w' = w.
Proof. unfold lift. destruct r; [|done]. by intros [= -> ->]. Qed.

Lemma shuffle_Ok (ds ds' : Dataset) (w w' : World) :
  shuffle ds w = Ok (ds', w') →
  ds' ≡ₚ ds ∧ files w' = files w ∧ trace w' = trace w.
Proof.
  unfold shuffle.
  pose proof (global_permutation_perm (np_random w) (length ds)) as Hp.
  destruct (global_permutation (np_random w) (length ds)) as [p s].
  intros [= <- <-]. split; [by apply select_Permutation|done].
Qed.

Lemma mapR_Ok {A B} (f : A → result B) xs ys :
  mapR f xs = Ok ys → Forall2 (λ x y, f x = Ok y) xs ys.
Proof.
  revert ys. induction xs as [|x xs IH]; intros ys; simpl.
  - intros [= <-]. constructor.
  - destruct (f x) as [y|] eqn:Hy; simpl; [|done].
    destruct (mapR f xs) as [ys'|]; simpl; [|done].
    intros [= <-]. constructor; [done|]. by apply IH.
Qed.

Lemma tokenize_remove_inv self (ds tr out : Dataset) :
  map_rows (tokenize_prompt self) ds = Ok tr →
  remove_columns ["input"; "instruction"; "output"] tr = Ok out →
  Forall2 (λ row o, tokenized_row self row = Ok o) ds out.
Proof.
  intros Hmap%mapR_Ok Hrm%mapR_Ok. revert out Hrm.
  induction Hmap as [|row r ds tr Hr _ IH]; intros out Hrm.
  - inversion Hrm. constructor.
  - inversion Hrm as [|? o ? out' Ho Hrest]; subst. constructor; [|by apply IH].
    unfold tokenized_row.
    destruct (tokenize_prompt self row) as [res|]; simpl in *; [|done].
    injection Hr as <-.
    match type of Ho with (if ?b then _ else _) = _ => by destruct b end.
Qed.

Lemma shuffle_tokenize_inv self (ds : Dataset) (w : World) {A} (k : Dataset → M A) r :
  (tr ← shuffle ds;
   tr ← lift (map_rows (tokenize_prompt self) tr);
   out ← lift (remove_columns ["input"; "instruction"; "output"] tr);
   k out) w = Ok r →
  ∃ rows out (w1 : World),
    rows ≡ₚ ds ∧
    Forall2 (λ row o, tokenized_row self row = Ok o) rows out ∧
    files w1 = files w ∧ trace w1 = trace w ∧
    k out w1 = Ok r.
Proof.
  intros (rows & w1 & Hsh & (tr & w2 & Hmap & (out & w3 & Hrm & Hk)%bind_Ok)%bind_Ok)%bind_Ok.
  apply shuffle_Ok in Hsh as (Hp & Hf & Ht).
  apply lift_Ok in Hmap as [Hmap ->]. apply lift_Ok in Hrm as [Hrm ->].
  exists rows, out, w1. split; [done|]. split; [by eapply tokenize_remove_inv|done].
Qed.

(** ** split_train_data: nothing lost, nothing added *)

Lemma split_train_data_inv self data (w w' : World) train val :
  split_train_data self data w = Ok ((train, val), w') →
  ∃ (ds rows : Dataset),
    getsplit data "train" = Ok ds ∧
    rows ≡ₚ ds ∧
    Forall2 (λ row o, tokenized_row self row = Ok o) rows
      (train ++ default [] val)%list ∧
    (is_Some val ↔ 0 < val_set_size self) ∧
    (length train + length (default [] val) = length ds)%nat ∧
    (∀ v, val = Some v → Z.of_nat (length v) = val_set_size self) ∧
    files w' = files w ∧ trace w' = trace w.
Proof.
  unfold split_train_data.
  destruct (0 <? val_set_size self) eqn:Hv.
  - apply Z.ltb_lt in Hv.
    intros (ds & w0 & [Hds ->]%lift_Ok &
            ([tr te] & w0' & [Hsplit ->]%lift_Ok & Hrest)%bind_Ok)%bind_Ok.
    cbn [fst snd] in Hrest.
    apply shuffle_tokenize_inv in Hrest
      as (rows1 & out1 & w1 & Hp1 & Hall1 & Hf1 & Ht1 & Hrest).
    apply shuffle_tokenize_inv in Hrest
      as (rows2 & out2 & w2 & Hp2 & Hall2 & Hf2 & Ht2 & Hrest).
    injection Hrest as <- <- <-.
    unfold train_test_split in Hsplit.
    destruct (_ || _) eqn:Hguard; [done|]. injection Hsplit as <- <-.
    apply orb_false_iff in Hguard as [Hn%Z.leb_gt _].
    set (k := Z.to_nat (val_set_size self)) in *.
    destruct (seeded_split_indices 42 (length ds) k) as (Hp & _ & _ & Hbt & Hbv).
    assert ((rows1 ++ rows2)%list ≡ₚ ds) as Hrows.
    { rewrite Hp1, Hp2, <- select_app. by apply select_Permutation. }
    assert (length (seeded_permutation 42 (length ds)) = length ds) as Hlen.
    { by rewrite (Permutation_length (seeded_permutation_perm 42 _)), length_seq. }
    assert (length out2 = k) as Hk.
    { rewrite <- (Forall2_length _ _ _ Hall2), (Permutation_length Hp2).
      rewrite select_length by done. rewrite length_take. lia. }
    exists ds, (rows1 ++ rows2)%list. split; [done|]. split; [done|].
    split; [by apply Forall2_app|]. split; [by split; eauto|].
    split.
    { simpl. rewrite <- (Forall2_length _ _ _ Hall1), <- (Forall2_length _ _ _ Hall2).
      by rewrite <- length_app, (Permutation_length Hrows). }
    split; [intros v [= <-]; lia|].
    split; congruence.
  - apply Z.ltb_ge in Hv.
    intros (ds & w0 & [Hds ->]%lift_Ok & Hrest)%bind_Ok.
    apply shuffle_tokenize_inv in Hrest
      as (rows & out & w1 & Hp & Hall & Hf & Ht & Hrest).
    injection Hrest as <- <- <-.
    exists ds, rows. split; [done|]. split; [done|].
    simpl. rewrite app_nil_r. split; [done|].
    split; [split; [by intros [? [=]]|lia]|].
    split; [by rewrite Nat.add_0_r, <- (Forall2_length _ _ _ Hall), Hp|].
    split; [done|]. by split.
Qed.

(** X6. Whenever [split_train_data] returns, the rows it returns, train
    followed by validation, are the tokenizations of the rows of the train
    split of the data, each taken once, in some order; validation data is
    returned exactly when the validation-set size is positive and then has
    that many rows; nothing is printed. *)
Theorem split_train_data_conservation self data (w w' : World) train val :
  split_train_data self data w = Ok ((train, val), w') →
  ∃ (ds rows : Dataset),
    getsplit data "train" = Ok ds ∧
    rows ≡ₚ ds ∧
    Forall2 (λ row o, tokenized_row self row = Ok o) rows
      (train ++ default [] val)%list ∧
    (is_Some val ↔ 0 < val_set_size self) ∧
    (length train + length (default [] val) = length ds)%nat ∧
    (∀ v, val = Some v → Z.of_nat (length v) = val_set_size self) ∧
    files w' = files w ∧ trace w' = trace w.
Proof. apply split_train_data_inv. Qed.


(** ** split_train_data: when it fails *)

(** X8. A positive validation-set size that is not below the number of
    rows makes the split fail with a [ValueError] before any row is
    tokenized, and [finetune] with it. *)
Theorem split_train_data_validation_too_large self data (ds : Dataset) (w : World) :
  getsplit data "train" = Ok ds →
  0 < val_set_size self →
  Z.of_nat (length ds) ≤ val_set_size self →
  split_train_data self data w = Raise ValueError ∧
  (∀ self0 fromdb iteration d,
     (finetune_setup self0).1 = self →
     load_train_data self fromdb iteration = Splits d →
     data = Splits d →
     finetune self0 fromdb iteration w = Raise ValueError).
Proof.
  intros Hds Hpos Hbig.
  assert (split_train_data self data w = Raise ValueError) as Hsplit.
  { unfold split_train_data.
    destruct (0 <? val_set_size self) eqn:E; [|apply Z.ltb_ge in E; lia].
    unfold mbind at 1, M_bind at 1, lift at 1. rewrite Hds.
    unfold mbind at 1, M_bind at 1, lift at 1, train_test_split.
    destruct (Z.of_nat (length ds) <=? val_set_size self) eqn:E1;
      [done|apply Z.leb_gt in E1; lia]. }
  split; [done|].
  intros self0 fromdb iteration d Hsetup Hload ->.
  unfold finetune. destruct (finetune_setup self0) as [self1 model1].
  simpl in Hsetup. subst self1. rewrite Hload.
  destruct (d !! "train") as [ds'|] eqn:Hd; [|by simpl in Hds; rewrite Hd in Hds].
  rewrite (truthy_data_Splits _ _ _ Hd). cbn [negb].
  unfold mbind at 1, M_bind at 1. by rewrite Hsplit.
Qed.

(** X9. Data that has no split named [train] is a [KeyError]: in the
    splitter, and in [finetune] whenever the loaded dict is not empty (an
    empty one takes the early return instead). *)
Theorem split_train_data_no_train_split self (d : gmap string Dataset) (w : World) :
  d !! "train" = None →
  split_train_data self (Splits d) w = Raise (KeyError "train") ∧
  (∀ self0 fromdb iteration,
     (finetune_setup self0).1 = self →
     load_train_data self fromdb iteration = Splits d →
     d ≠ ∅ →
     finetune self0 fromdb iteration w = Raise (KeyError "train")).
Proof.
  intros Hd.
  assert (split_train_data self (Splits d) w = Raise (KeyError "train")) as Hsplit.
  { unfold split_train_data, getsplit.
    destruct (0 <? val_set_size self);
      unfold mbind at 1, M_bind at 1, lift at 1; by rewrite Hd. }
  split; [done|].
  intros self0 fromdb iteration Hsetup Hload Hne.
  unfold finetune. destruct (finetune_setup self0) as [self1 model1].
  simpl in Hsetup. subst self1. rewrite Hload.
  simpl. rewrite bool_decide_eq_false_2 by done. cbn [negb].
  unfold mbind at 1, M_bind at 1. by rewrite Hsplit.
Qed.

Lemma tokenize_without_instruction self tok (ds : Dataset) :
  tokenizer self = Some tok →
  ds ≠ [] →
  Forall (λ row : Row,
            (∃ text, row !! "input" = Some (VStr text)) ∧
            row !! "instruction" = None ∧
            (∃ out, row !! "output" = Some (VStr out) ∧ out ∈ labels self)) ds →
  ∃ tr, map_rows (tokenize_prompt self) ds = Ok tr ∧
        remove_columns ["input"; "instruction"; "output"] tr = Raise ValueError.
Proof.
  intros Htok Hne Hall.
  assert (∀ row : Row,
            (∃ text, row !! "input" = Some (VStr text)) ∧
            row !! "instruction" = None ∧
            (∃ out, row !! "output" = Some (VStr out) ∧ out ∈ labels self) →
            ∃ res, tokenize_prompt self row = Ok res ∧
                   (res ∪ row) !! "instruction" = None) as Hrow.
  { intros row ([text Hin] & Hins & (out & Hout & Hmem)).
    destruct (index_from_elem _ _ 0%nat Hmem) as [i Hi].
    eexists. split; [by eapply tokenize_prompt_Ok|].
    apply lookup_union_None. split; [|done].
    by rewrite !lookup_insert_ne, lookup_empty by done. }
  assert (∃ tr, map_rows (tokenize_prompt self) ds = Ok tr ∧
                Forall2 (λ (row r : Row), r !! "instruction" = None) ds tr)
    as (tr & Htr & Hcols).
  { clear Hne. induction Hall as [|row ds Hr _ (tr & Htr & Hcols)].
    - exists []. split; [done|constructor].
    - destruct (Hrow row Hr) as (res & Hres & Hnone).
      exists ((res ∪ row) :: tr). unfold map_rows in *. simpl.
      rewrite Hres. simpl. rewrite Htr. split; [done|]. by constructor. }
  exists tr. split; [done|].
  destruct Hcols as [|row r ds' tr' Hnone _]; [done|].
  unfold remove_columns. simpl.
  rewrite (bool_decide_eq_false_2 (is_Some (r !! "instruction")));
    [|rewrite Hnone; by intros [? ?]].
  by rewrite andb_false_r.
Qed.

(** X10. The [instruction] column has to exist although no step reads it:
    on rows that tokenize well but have no such column, the column removal
    after the tokenization is a [ValueError], with or without a validation
    split. *)
Theorem split_train_data_needs_instruction self tok data (ds : Dataset) (w : World) :
  tokenizer self = Some tok →
  getsplit data "train" = Ok ds →
  ds ≠ [] →
  Forall (λ row : Row,
            (∃ text, row !! "input" = Some (VStr text)) ∧
            row !! "instruction" = None ∧
            (∃ out, row !! "output" = Some (VStr out) ∧ out ∈ labels self)) ds →
  val_set_size self ≤ 0 ∨ val_set_size self < Z.of_nat (length ds) →
  split_train_data self data w = Raise ValueError.
Proof.
  intros Htok Hds Hne Hall Hval.
  assert (∀ (l : Dataset) (w0 : World) A (k : Dataset → M A),
            l ≠ [] → (∀ row, row ∈ l → row ∈ ds) →
            (tr ← shuffle l;
             tr ← lift (map_rows (tokenize_prompt self) tr);
             out ← lift (remove_columns ["input"; "instruction"; "output"] tr);
             k out) w0 = Raise ValueError) as Hblock.
  { intros l w0 A k Hl Hsub.
    pose proof (global_permutation_perm (np_random w0) (length l)) as Hp.
    unfold mbind, M_bind, shuffle, lift.
    destruct (global_permutation (np_random w0) (length l)) as [p s].
    cbn [fst] in Hp. apply select_Permutation in Hp.
    destruct (tokenize_without_instruction self tok (select p l) Htok)
      as (tr & -> & ->); [| |done].
    - intros Hnil. rewrite Hnil in Hp. by apply Permutation_nil in Hp.
    - rewrite Forall_forall in Hall. apply Forall_forall. intros row Hrow.
      apply Hall, Hsub. by rewrite <- Hp. }
  unfold split_train_data.
  destruct (0 <? val_set_size self) eqn:Hv.
  - apply Z.ltb_lt in Hv. destruct Hval as [|Hval]; [lia|].
    unfold mbind at 1, M_bind at 1, lift at 1. rewrite Hds.
    unfold mbind at 1, M_bind at 1, lift at 1, train_test_split.
    destruct (Z.of_nat (length ds) <=? val_set_size self) eqn:E1;
      [apply Z.leb_le in E1; lia|].
    destruct (val_set_size self <=? 0) eqn:E2; [apply Z.leb_le in E2; lia|].
    cbn [orb fst snd]. apply Hblock.
    + set (k := Z.to_nat (val_set_size self)).
      destruct (seeded_split_indices 42 (length ds) k) as (_ & _ & _ & Hbt & _).
      intros Hnil. apply (f_equal length) in Hnil.
      rewrite select_length in Hnil by done. rewrite length_drop in Hnil.
      rewrite (Permutation_length (seeded_permutation_perm 42 _)), length_seq in Hnil.
      simpl in Hnil. lia.
    + intros row (i & _ & Hi)%list_elem_of_omap. by eapply list_elem_of_lookup_2.
  - unfold mbind at 1, M_bind at 1, lift at 1. rewrite Hds. by apply Hblock.
Qed.

(** ** Checkpoint resolution: the other cases *)

(** X11. When the configured directory holds neither file, resolution is
    not an error: nothing is loaded, the model is as it was, the resume flag
    is cleared, and the one message printed names [adapter_model.bin], the
    file looked for last. *)
Theorem resume_checkpoint_nothing_found self model (w : World) dir :
  resume_from_checkpoint self = VStr dir →
  dir ≠ "" →
  os_path_join dir "pytorch_model.bin" ∉ files w →
  os_path_join dir "adapter_model.bin" ∉ files w →
  ∃ self2 (w2 : World),
    resume_checkpoint self model w = Ok ((self2, model), w2) ∧
    resume_from_checkpoint self2 = VBool false ∧
    trace w2 =
      (trace w ++ [Printed ("Checkpoint " +:+ os_path_join dir "adapter_model.bin"
                            +:+ " not found")])%list ∧
    (∀ p, TorchLoad p ∈ trace w2 → TorchLoad p ∈ trace w).
Proof.
  intros Hdir Hne Hfull Hadapter. eexists _, _.
  split; [by apply resume_checkpoint_missing|]. split; [done|]. split; [done|].
  simpl. intros p [Hin|Hin%list_elem_of_singleton]%elem_of_app; done.
Qed.


(** X13. A truthy resume flag that is not a path ([True], a number) is a
    [TypeError] from [os.path.join]; no file is probed and nothing is
    loaded. *)
Theorem resume_checkpoint_not_a_path self model (w : World) :
  truthy (resume_from_checkpoint self) = true →
  (∀ dir, resume_from_checkpoint self ≠ VStr dir) →
  resume_checkpoint self model w = Raise TypeError.
Proof.
  intros Ht Hnot. unfold resume_checkpoint. rewrite Ht.
  unfold mbind at 1, M_bind at 1, lift at 1.
  destruct (resume_from_checkpoint self) as [| | |dir|]; try done.
  by destruct (Hnot dir).
Qed.

(** X14. Resolution writes its verdict into the object: once it has run
    without finding [pytorch_model.bin], a second resolution on the same
    object does nothing, even if the files have appeared in the meantime. *)
Theorem resume_checkpoint_once self model (w : World) self2 model2 (w2 : World) dir :
  resume_checkpoint self model w = Ok ((self2, model2), w2) →
  resume_from_checkpoint self = VStr dir →
  os_path_join dir "pytorch_model.bin" ∉ files w →
  ∀ model' (w' : World), resume_checkpoint self2 model' w' = Ok ((self2, model'), w').
Proof.
  intros Hrun Hdir Hfull model' w'.
  apply resume_checkpoint_not_configured.
  destruct (decide (dir = "")) as [->|Hne].
  - rewrite resume_checkpoint_not_configured in Hrun by (by rewrite Hdir).
    injection Hrun as <- _ _. by rewrite Hdir.
  - destruct (decide (os_path_join dir "adapter_model.bin" ∈ files w)).
    + rewrite (resume_checkpoint_adapter self model w dir) in Hrun by done.
      by injection Hrun as <- _ _.
    + rewrite (resume_checkpoint_missing self model w dir) in Hrun by done.
      by injection Hrun as <- _ _.
Qed.

(** ** The step counts at the edges *)

(** X15. A dataset of fewer rows than ten effective batches gets a save
    cadence and a warmup of zero steps (and one of fewer rows than a single
    batch gets zero optimizer steps); from ten batches on the cadence is
    positive.  The training arguments carry that number as [save_steps] and
    [warmup_steps]. *)
Theorem schedule_small_dataset self (rows : nat) :
  0 < per_gpu_train_batch_size self →
  0 < gradient_accumulation_steps self →
  (ddp self = true → 0 < world_size self) →
  Z.of_nat rows < 2 ^ 53 →
  ∃ s, schedule self (Z.of_nat rows) = Ok s ∧
       (total_optim_steps s = 0 ↔ Z.of_nat rows < total_batch_size s) ∧
       (saving_step s = 0 ↔ Z.of_nat rows < 10 * total_batch_size s) ∧
       0 ≤ saving_step s ∧
       10 * saving_step s * total_batch_size s ≤ Z.of_nat rows ∧
       save_steps (training_arguments self s) = saving_step s ∧
       warmup_steps (training_arguments self s) = saving_step s.
Proof.
  intros Hb Ha Hw Hrows.
  set (batch := per_gpu_train_batch_size self * gradient_accumulation_steps self
                * (if ddp self then world_size self else 1)).
  assert (0 < batch) as Hbatch.
  { unfold batch. destruct (ddp self); [specialize (Hw eq_refl)|]; nia. }
  eexists. split; [by apply schedule_value|]. fold batch. simpl.
  pose proof (Z.div_mod (Z.of_nat rows) batch ltac:(lia)) as Hdm.
  pose proof (Z.mod_pos_bound (Z.of_nat rows) batch Hbatch) as Hr.
  set (q := Z.of_nat rows / batch) in *.
  assert (0 ≤ q) as Hq by (apply Z.div_pos; lia).
  pose proof (Z.div_mod q 10 ltac:(lia)) as Hdm'.
  pose proof (Z.mod_pos_bound q 10 ltac:(lia)) as Hr'.
  assert (0 ≤ q / 10) as Hq' by (apply Z.div_pos; lia).
  split; [split; nia|]. split; [split; nia|].
  split; [done|]. split; [nia|done].
Qed.

Lemma schedule_small_dataset_witness :
  ∃ s, schedule demo_self 79 = Ok s ∧
       saving_step s = 0 ∧ total_optim_steps s = 9.
Proof.
  destruct (schedule_small_dataset demo_self 79)
    as (s & Hs & _ & [_ Hzero] & _).
  - reflexivity.
  - reflexivity.
  - discriminate.
  - reflexivity.
  - exists s. split; [exact Hs|]. split.
    + apply Hzero. replace (total_batch_size s) with 8; [reflexivity|].
      vm_compute in Hs. by injection Hs as <-.
    + vm_compute in Hs. by injection Hs as <-.
Defined.

Lemma int_truediv_10_no_zero_division a :
  int_truediv a 10 ≠ Raise ZeroDivisionError.
Proof.
  unfold int_truediv, PyFloat.truediv. change (10 =? 0) with false. cbv iota.
  destruct (a =? 0); [done|].
  destruct (PyFloat.scaled _ _ _) as [x y].
  by destruct (1024 <=? _).
Qed.

(** X16. The step computation divides by the effective batch size, so it
    is a [ZeroDivisionError] exactly when that product is zero: a per-device
    batch size or an accumulation of zero, or distributed training with a
    world size of zero. *)
Theorem schedule_zero_batch self rows :
  (schedule self rows = Raise ZeroDivisionError ↔
   per_gpu_train_batch_size self * gradient_accumulation_steps self
   * (if ddp self then world_size self else 1) = 0) ∧
  (schedule self rows = Raise ZeroDivisionError ↔
   per_gpu_train_batch_size self = 0 ∨ gradient_accumulation_steps self = 0 ∨
   (ddp self = true ∧ world_size self = 0)).
Proof.
  assert (schedule self rows = Raise ZeroDivisionError ↔
          per_gpu_train_batch_size self * gradient_accumulation_steps self
          * (if ddp self then world_size self else 1) = 0) as Hiff.
  { unfold schedule, floordiv.
    destruct (_ =? 0) eqn:E.
    - apply Z.eqb_eq in E. by split.
    - apply Z.eqb_neq in E. split; [|done]. simpl.
      pose proof (int_truediv_10_no_zero_division
                    (rows / (per_gpu_train_batch_size self
                             * gradient_accumulation_steps self
                             * (if ddp self then world_size self else 1)))) as Hno.
      destruct (int_truediv _ 10) as [x|e]; simpl; [done|].
      intros [= ->]. done. }
  split; [done|]. rewrite Hiff. destruct (ddp self); split.
  - intros Hz. apply Z.mul_eq_0 in Hz as [Hz%Z.mul_eq_0|Hz]; tauto.
  - intros [->|[->|[_ ->]]]; lia.
  - intros Hz. rewrite Z.mul_1_r in Hz. apply Z.mul_eq_0 in Hz. tauto.
  - intros [->|[->|[? _]]]; [lia|lia|done].
Qed.

(** ** finetune, read backwards from a normal return *)

Lemma resume_checkpoint_inv self model (w : World) self2 model2 (w2 : World) :
  resume_checkpoint self model w = Ok ((self2, model2), w2) →
  ∃ evs,
    trace w2 = (trace w ++ evs)%list ∧
    Forall (λ e, ∃ s, e = Printed s ∨ e = TorchLoad s) evs ∧
    files w2 = files w ∧
    (self2 = self ∨ self2 = set_resume_from_checkpoint (VBool false) self) ∧
    (model2 = model ∨ ∃ p, model2 = apply_op (SetPeftState p) model).
Proof.
  intros Hrun.
  destruct (truthy (resume_from_checkpoint self)) eqn:Ht.
  - assert (∃ dir, resume_from_checkpoint self = VStr dir) as [dir Hdir].
    { unfold resume_checkpoint in Hrun. rewrite Ht in Hrun.
      apply bind_Ok in Hrun as (d & w0 & [Hd _]%lift_Ok & _).
      destruct (resume_from_checkpoint self); try done. eauto. }
    assert (dir ≠ "") as Hne by (apply truthy_VStr; by rewrite <- Hdir).
    destruct (decide (os_path_join dir "pytorch_model.bin" ∈ files w)).
    + rewrite (resume_checkpoint_full self model w dir) in Hrun by done.
      injection Hrun as <- <- <-. eexists [_; _].
      split; [by simpl; rewrite <- (assoc_L app)|].
      split; [repeat constructor; eauto|]. split; [done|]. split; [by left|].
      right. eauto.
    + destruct (decide (os_path_join dir "adapter_model.bin" ∈ files w)).
      * rewrite (resume_checkpoint_adapter self model w dir) in Hrun by done.
        injection Hrun as <- <- <-. eexists [_; _].
        split; [by simpl; rewrite <- (assoc_L app)|].
        split; [repeat constructor; eauto|]. split; [done|]. split; [by right|].
        right. eauto.
      * rewrite (resume_checkpoint_missing self model w dir) in Hrun by done.
        injection Hrun as <- <- <-. eexists [_].
        split; [done|]. split; [repeat constructor; eauto|].
        split; [done|]. split; [by right|by left].
  - rewrite resume_checkpoint_not_configured in Hrun by done.
    injection Hrun as <- <- <-. exists [].
    split; [by rewrite app_nil_r|]. split; [constructor|].
    split; [done|]. split; by left.
Qed.

Lemma finetune_inv self fromdb iteration (w : World) self' (w' : World) :
  finetune self fromdb iteration w = Ok (self', w') →
  let self1 := (finetune_setup self).1 in
  let model1 := (finetune_setup self).2 in
  let data := load_train_data self1 fromdb iteration in
  (truthy_data data = false ∧ self' = self1 ∧ files w' = files w ∧
   trace w' = (trace w ++ [Printed "Warning! Empty Train Data!"])%list) ∨
  (truthy_data data = true ∧
   ∃ train val (w1 : World) model2 (w2 : World) s,
     split_train_data self1 data w = Ok ((train, val), w1) ∧
     resume_checkpoint self1 model1 w1 = Ok ((self', model2), w2) ∧
     schedule self' (Z.of_nat (length train)) = Ok s ∧
     files w' = files w2 ∧
     trace w' =
       (trace w2 ++
        [NewTrainer {| tr_model := model2; train_dataset := train;
                       eval_dataset := val; args := training_arguments self' s;
                       data_collator := tokenizer self' |};
         Train {| tr_model := apply_op NoCache model2; train_dataset := train;
                  eval_dataset := val; args := training_arguments self' s;
                  data_collator := tokenizer self' |}
               (resume_from_checkpoint self');
         SavePretrained
           (if String.leb "2" torch_version && negb (String.eqb sys_platform "win32")
            then apply_op Compile (apply_op NoCache model2)
            else apply_op NoCache model2)
           (output_dir self');
         Printed (String "010"%char
           " If there's a warning about missing keys above, please disregard :)")])%list).
Proof.
  unfold finetune. destruct (finetune_setup self) as [self1 model1]. cbn [fst snd].
  destruct (truthy_data (load_train_data self1 fromdb iteration)) eqn:Hdata; cbn [negb].
  - intros ([train val] & w1 & Hsplit &
            ([self2 model2] & w2 & Hrc &
             (s & w3 & [Hs ->]%lift_Ok & Hrest)%bind_Ok)%bind_Ok)%bind_Ok.
    unfold mbind, M_bind, print, emit, mret, M_ret in Hrest.
    cbn [files np_random trace] in Hrest. injection Hrest as <- <-.
    right. split; [done|]. exists train, val, w1, model2, w2, s.
    split; [done|]. split; [done|]. split; [done|]. split; [done|].
    cbn [trace]. by rewrite <- !(assoc_L app).
  - unfold mbind, M_bind, print, emit, mret, M_ret.
    intros [= <- <-]. left. done.
Qed.

Lemma schedule_warmup_eq self rows s :
  schedule self rows = Ok s → sched_warmup_steps s = saving_step s.
Proof.
  unfold schedule. destruct (floordiv _ _) as [q|]; simpl; [|done].
  destruct (int_truediv q 10) as [x|]; simpl; [|done]. by intros [= <-].
Qed.

Lemma finetune_trainer_inv self fromdb iteration (w : World) self' (w' : World) :
  finetune self fromdb iteration w = Ok (self', w') →
  trace w' = (trace w ++ [Printed "Warning! Empty Train Data!"])%list ∨
  ∃ evs t1 t2 m,
    trace w' =
      (trace w ++ evs ++
       [NewTrainer t1; Train t2 (resume_from_checkpoint self');
        SavePretrained m (output_dir self');
        Printed (String "010"%char
          " If there's a warning about missing keys above, please disregard :)")])%list ∧
    Forall (λ e, ∃ s, e = Printed s ∨ e = TorchLoad s) evs ∧
    train_dataset t2 = train_dataset t1 ∧
    eval_dataset t2 = eval_dataset t1 ∧
    args t2 = args t1 ∧
    tr_model t2 = apply_op NoCache (tr_model t1) ∧
    m = (if String.leb "2" torch_version && negb (String.eqb sys_platform "win32")
         then apply_op Compile (tr_model t2) else tr_model t2) ∧
    (is_Some (eval_dataset t2) ↔ 0 < val_set_size self') ∧
    (∃ s, args t2 = training_arguments self' s ∧
          sched_warmup_steps s = saving_step s).
Proof.
  intros [(_ & _ & _ & Htrace)|(_ & train & val & w1 & model2 & w2 & s &
                                 Hsplit & Hrc & Hs & _ & Htrace)]%finetune_inv;
    [by left|right].
  apply split_train_data_inv in Hsplit as (ds & rows & _ & _ & _ & Hval & _ & _ & _ & Ht1).
  apply resume_checkpoint_inv in Hrc as (evs & Ht2 & Hevs & _ & Hself & _).
  eexists evs, _, _, _. split.
  { rewrite Htrace, Ht2, Ht1. by rewrite <- !(assoc_L app). }
  split; [done|]. do 5 (split; [reflexivity|]).
  split; [|by eauto using schedule_warmup_eq].
  cbn [eval_dataset]. by destruct Hself as [->| ->].
Qed.

(** C3 as amended. [finetune] takes the early return exactly on what
    [not data] holds of, [None] or a dict without any split: it then prints
    the warning and returns normally, with no exception and with no trainer
    built or run (the warning is its only action).  Every other value goes
    on to the splitter, a dict whose train split has zero rows included:
    when [finetune] returns normally on it, it has built a trainer and run
    it, and what it did is not the warning alone. *)
Theorem finetune_empty_data self fromdb iteration (w : World) :
  let self1 := (finetune_setup self).1 in
  let data := load_train_data self1 fromdb iteration in
  (truthy_data data = false ↔ data = NoData ∨ data = Splits ∅) ∧
  (truthy_data data = false →
   ∃ w' : World,
     finetune self fromdb iteration w = Ok (self1, w') ∧
     trace w' = (trace w ++ [Printed "Warning! Empty Train Data!"])%list ∧
     files w' = files w ∧ np_random w' = np_random w ∧
     (∀ e, e ∈ trace w' → e ∈ trace w ∨ e = Printed "Warning! Empty Train Data!")) ∧
  (truthy_data data = true →
   ∀ self' (w' : World),
     finetune self fromdb iteration w = Ok (self', w') →
     trace w' ≠ (trace w ++ [Printed "Warning! Empty Train Data!"])%list ∧
     ∃ evs t1 t2 after,
       trace w' =
         (trace w ++ evs ++
          NewTrainer t1 :: Train t2 (resume_from_checkpoint self') :: after)%list ∧
       Forall (λ e, ∃ s, e = Printed s ∨ e = TorchLoad s) evs).
Proof.
  intros self1 data. split; [|split].
  - destruct data as [|d]; simpl.
    + split; [by left|done].
    + rewrite negb_false_iff, bool_decide_eq_true. split.
      * intros ->. by right.
      * by intros [|[= ->]].
  - intros Hempty. eexists. split.
    + unfold finetune. subst data self1.
      destruct (finetune_setup self) as [self1 model1].
      cbn [fst] in *. rewrite Hempty. reflexivity.
    + simpl. repeat split; try done.
      intros e [He|He%list_elem_of_singleton]%elem_of_app; auto.
  - intros Hdata self' w' Hrun.
    apply finetune_inv in Hrun
      as [(Hf & _)|(_ & train & val & w1 & model2 & w2 & s &
                    Hsplit & Hrc & _ & _ & Htrace)].
    { fold self1 data in Hf. congruence. }
    apply split_train_data_inv in Hsplit as (ds & rows & _ & _ & _ & _ & _ & _ & _ & Ht1).
    apply resume_checkpoint_inv in Hrc as (evs & Ht2 & Hevs & _).
    assert (trace w' =
            (trace w ++ evs ++
             NewTrainer {| tr_model := model2; train_dataset := train;
                           eval_dataset := val;
                           args := training_arguments self' s;
                           data_collator := tokenizer self' |}
             :: Train {| tr_model := apply_op NoCache model2; train_dataset := train;
                         eval_dataset := val;
                         args := training_arguments self' s;
                         data_collator := tokenizer self' |}
                      (resume_from_checkpoint self')
             :: [SavePretrained
                   (if String.leb "2" torch_version
                       && negb (String.eqb sys_platform "win32")
                    then apply_op Compile (apply_op NoCache model2)
                    else apply_op NoCache model2)
                   (output_dir self');
                 Printed (String "010"%char
                   " If there's a warning about missing keys above, please disregard :)")])%list)
      as Hshape.
    { rewrite Htrace, Ht2, Ht1. by rewrite <- !(assoc_L app). }
    split.
    + rewrite Hshape. intros Heq. apply app_inv_head in Heq.
      apply (f_equal length) in Heq. rewrite length_app in Heq. simpl in Heq. lia.
    + eexists evs, _, _, _. split; [exact Hshape | exact Hevs].
Qed.

(** X17. A normal return of [finetune] has done one of two things: printed
    the empty-data warning and nothing else; or, after at most some
    messages and weight loading, built one trainer, trained it once, saved
    the model once, after the training and into the directory the training
    arguments name, and printed the closing note. *)
Theorem finetune_actions self fromdb iteration (w : World) self' (w' : World) :
  finetune self fromdb iteration w = Ok (self', w') →
  trace w' = (trace w ++ [Printed "Warning! Empty Train Data!"])%list ∨
  ∃ evs t1 t2 m,
    trace w' =
      (trace w ++ evs ++
       [NewTrainer t1; Train t2 (resume_from_checkpoint self');
        SavePretrained m (output_dir self');
        Printed (String "010"%char
          " If there's a warning about missing keys above, please disregard :)")])%list ∧
    Forall (λ e, ∃ s, e = Printed s ∨ e = TorchLoad s) evs ∧
    train_dataset t2 = train_dataset t1 ∧
    eval_dataset t2 = eval_dataset t1 ∧
    args t2 = args t1 ∧
    ta_output_dir (args t2) = output_dir self'.
Proof.
  intros [Hwarn|(evs & t1 & t2 & m & Htrace & Hevs & Htd & Hed & Hargs & _ & _ & _ &
                 (s & Hs & _))]%finetune_trainer_inv; [by left|right].
  exists evs, t1, t2, m. do 5 (split; [done|]). by rewrite Hs.
Qed.

(** X18. The trainer is asked to evaluate exactly when it is given
    validation data: on a run that trains, the evaluation dataset is present
    if and only if the evaluation strategy is [steps], if and only if the
    best model is to be loaded at the end, if and only if [eval_steps] is
    set, and it is then the save cadence; without validation data the
    strategy is [no] and [eval_steps] is [None]. *)
Theorem finetune_evaluation_gate self fromdb iteration (w : World) self' (w' : World) :
  finetune self fromdb iteration w = Ok (self', w') →
  trace w' = (trace w ++ [Printed "Warning! Empty Train Data!"])%list ∨
  ∃ before t r after,
    trace w' = (trace w ++ before ++ Train t r :: after)%list ∧
    (is_Some (eval_dataset t) ↔ evaluation_strategy (args t) = "steps") ∧
    (is_Some (eval_dataset t) ↔ load_best_model_at_end (args t) = true) ∧
    (is_Some (eval_dataset t) ↔ eval_steps (args t) = Some (save_steps (args t))) ∧
    (eval_dataset t = None →
     evaluation_strategy (args t) = "no" ∧ eval_steps (args t) = None) ∧
    warmup_steps (args t) = save_steps (args t).
Proof.
  intros [Hwarn|(evs & t1 & t2 & m & Htrace & _ & _ & _ & _ & _ & _ & Hval &
                 (s & Hs & Hw))]%finetune_trainer_inv; [by left|right].
  eexists (evs ++ [NewTrainer t1])%list, t2, (resume_from_checkpoint self'), _.
  split; [rewrite Htrace, <- !(assoc_L app); reflexivity|].
  rewrite Hs. cbn [evaluation_strategy load_best_model_at_end eval_steps save_steps
                   warmup_steps training_arguments].
  destruct (0 <? val_set_size self') eqn:E.
  - apply Z.ltb_lt in E. apply Hval in E as Hsome.
    do 3 (split; [by split|]). split; [|done].
    intros Hnone. rewrite Hnone in Hsome. by destruct Hsome as [? ?].
  - apply Z.ltb_ge in E.
    assert (¬ is_Some (eval_dataset t2)) as Hno by (rewrite Hval; lia).
    do 3 (split; [by split|]). by split.
Qed.

(** X19. On a run that trains, the trainer is built on the model before
    its cache is switched off but trains the very model with the cache off;
    [torch.compile] comes after the trainer was built, so its result is
    never what is trained: it is only what is saved, on torch 2 or later
    outside Windows, and otherwise the trained model is saved. *)
Theorem finetune_trained_and_saved_model self fromdb iteration (w : World)
    self' (w' : World) :
  finetune self fromdb iteration w = Ok (self', w') →
  trace w' = (trace w ++ [Printed "Warning! Empty Train Data!"])%list ∨
  ∃ evs t1 t2 r m dir note,
    trace w' =
      (trace w ++ evs ++
       [NewTrainer t1; Train t2 r; SavePretrained m dir; Printed note])%list ∧
    ops (tr_model t2) = (ops (tr_model t1) ++ [NoCache])%list ∧
    (String.leb "2" torch_version && negb (String.eqb sys_platform "win32") = true →
     ops m = (ops (tr_model t2) ++ [Compile])%list) ∧
    (String.leb "2" torch_version && negb (String.eqb sys_platform "win32") = false →
     m = tr_model t2).
Proof.
  intros [Hwarn|(evs & t1 & t2 & m & Htrace & _ & _ & _ & _ & Hm2 & Hm & _)]%finetune_trainer_inv;
    [by left|right].
  eexists evs, t1, t2, _, m, _, _. split; [exact Htrace|].
  split; [by rewrite Hm2|]. rewrite Hm. split; by intros ->.
Qed.

Lemma finetune_setup_self self :
  let self0 := default_target_modules (auto_device self) in
  (finetune_setup self).1 =
    set_tokenizer (Some (get_model_tokenizer self0).2) self0.
Proof.
  unfold finetune_setup. cbv zeta.
  by destruct (get_model_tokenizer (default_target_modules (auto_device self))).
Qed.

(** X20. What a normal return of [finetune] leaves on the object, the
    early return for empty data included: a tokenizer, the pretrained one
    with its padding token filled in from the end-of-sequence token when it
    had none; target modules that are not empty, the configured ones when
    there were any; and labels, sizes and paths as [auto_device] left them;
    the resume flag is as before or [False]. *)
Theorem finetune_object_state self fromdb iteration (w : World) self' (w' : World) :
  finetune self fromdb iteration w = Ok (self', w') →
  let self0 := auto_device self in
  let pre := tokenizer_from_pretrained (base_model self0) (add_eos_token self0) in
  (∃ tok, tokenizer self' = Some tok ∧
          tokens tok = tokens pre ∧
          model_max_length tok = model_max_length pre ∧
          pad_token tok = match pad_token pre with
                          | Some p => Some p
                          | None => eos_token pre
                          end) ∧
  lora_target_modules self' ≠ [] ∧
  (lora_target_modules self0 ≠ [] →
   lora_target_modules self' = lora_target_modules self0) ∧
  (resume_from_checkpoint self' = resume_from_checkpoint self0 ∨
   resume_from_checkpoint self' = VBool false) ∧
  labels self' = labels self0 ∧
  val_set_size self' = val_set_size self0 ∧
  per_gpu_train_batch_size self' = per_gpu_train_batch_size self0 ∧
  gradient_accumulation_steps self' = gradient_accumulation_steps self0 ∧
  output_dir self' = output_dir self0 ∧
  adapter_weights self' = adapter_weights self0.
Proof.
  intros Hrun self0 pre.
  assert (self' = (finetune_setup self).1 ∨
          self' = set_resume_from_checkpoint (VBool false) (finetune_setup self).1)
    as Hself.
  { apply finetune_inv in Hrun
      as [(_ & -> & _)|(_ & train & val & w1 & model2 & w2 & s & _ & Hrc & _)];
      [by left|].
    by apply resume_checkpoint_inv in Hrc as (evs & _ & _ & _ & Hself & _). }
  rewrite finetune_setup_self in Hself. fold self0 in Hself.
  assert (∀ o, base_model (default_target_modules o) = base_model o ∧
               add_eos_token (default_target_modules o) = add_eos_token o ∧
               lora_target_modules (default_target_modules o) ≠ [] ∧
               (lora_target_modules o ≠ [] →
                lora_target_modules (default_target_modules o) = lora_target_modules o) ∧
               resume_from_checkpoint (default_target_modules o) = resume_from_checkpoint o ∧
               labels (default_target_modules o) = labels o ∧
               val_set_size (default_target_modules o) = val_set_size o ∧
               per_gpu_train_batch_size (default_target_modules o)
                 = per_gpu_train_batch_size o ∧
               gradient_accumulation_steps (default_target_modules o)
                 = gradient_accumulation_steps o ∧
               output_dir (default_target_modules o) = output_dir o ∧
               adapter_weights (default_target_modules o) = adapter_weights o) as Hdef.
  { intros o. unfold default_target_modules.
    destruct (lora_target_modules o) eqn:Hl; [|by rewrite Hl].
    by destruct (String.eqb (model_type o) "llama2"). }
  destruct (Hdef self0) as (Hbase & Heos & Hne & Hkeep & Hres & Hlab & Hval & Hb & Ha & Hout & Had).
  assert (∃ tok, (get_model_tokenizer (default_target_modules self0)).2 = tok ∧
                 tokens tok = tokens pre ∧
                 model_max_length tok = model_max_length pre ∧
                 pad_token tok = match pad_token pre with
                                 | Some p => Some p
                                 | None => eos_token pre
                                 end) as (tok & Htok & Htoks & Hmax & Hpad).
  { eexists. split; [reflexivity|]. unfold get_model_tokenizer. cbn [snd].
    rewrite Hbase, Heos. fold pre. by destruct (pad_token pre) eqn:Hp. }
  rewrite Htok in Hself.
  destruct Hself as [->| ->]; cbn; (split; [by exists tok|]);
    rewrite ?Hres; repeat split; auto.
Qed.

(** ** generate *)

Lemma inference_model_tokenizer self :
  ∃ tok, tokenizer (inference_model self).1 = Some tok.
Proof.
  unfold inference_model.
  destruct (get_model_tokenizer (auto_device self)) as [model tok].
  by exists tok.
Qed.

(** X21. When every evaluation item has a textual [input] and the model's
    arg-max stays below the number of labels, [generate] hands to
    [eval_output] the same items in the same order, each with the column
    [ac_output] set to the label [evaluate] returns for its input, a name of
    the vocabulary, and all its other columns as they were; that hand-over
    is its only action. *)
Theorem generate_annotates self instruction input data fromdb type iteration
    test_iteration (w : World) :
  let self1 := (inference_model self).1 in
  let model := (inference_model self).2 in
  let items := get_eval_input self1 instruction input data fromdb type iteration in
  Forall (λ item : Row, ∃ text, item !! "input" = Some (VStr text)) items →
  (∀ inputs, (argmax_logits model inputs < length (labels self1))%nat) →
  ∃ (items' : Dataset) (w' : World),
    generate self instruction input data fromdb type iteration test_iteration w
      = Ok (self1, w') ∧
    trace w' = (trace w ++ [EvalOutput items'])%list ∧
    files w' = files w ∧
    Forall2 (λ item item' : Row,
               ∃ text l, item !! "input" = Some (VStr text) ∧
                         evaluate self1 model (VStr text) = Ok l ∧
                         l ∈ labels self1 ∧
                         item' = <["ac_output" := VStr l]> item) items items'.
Proof.
  intros self1 model items Hitems Hidx.
  destruct (inference_model_tokenizer self) as [tok Htok]. fold self1 in Htok.
  assert (∀ text, ∃ l, evaluate self1 model (VStr text) = Ok l ∧ l ∈ labels self1)
    as Heval.
  { clearbody self1 model. clear items Hitems.
    intros text. unfold evaluate, self_tokenizer. rewrite Htok. simpl.
    destruct (labels self1 !! _) as [l|] eqn:Hl.
    - exists l. split; [done|]. by eapply list_elem_of_lookup_2.
    - apply lookup_ge_None in Hl.
      match type of Hl with
      | (_ ≤ argmax_logits _ ?x)%nat => pose proof (Hidx x)
      end. lia. }
  assert (∃ items' : Dataset,
            mapR (λ item : Row,
                    text ← getitem item "input";
                    response ← evaluate self1 model text;
                    Ok (<["ac_output" := VStr response]> item)) items = Ok items' ∧
            Forall2 (λ item item' : Row,
               ∃ text l, item !! "input" = Some (VStr text) ∧
                         evaluate self1 model (VStr text) = Ok l ∧
                         l ∈ labels self1 ∧
                         item' = <["ac_output" := VStr l]> item) items items')
    as (items' & Hmap & Hall).
  { induction Hitems as [|item items0 [text Hin] _ (items' & Hmap & Hall)].
    - exists []. split; [done|constructor].
    - destruct (Heval text) as (l & Hl & Hmem).
      exists (<["ac_output" := VStr l]> item :: items'). split.
      + cbn [mapR]. rewrite Hmap.
        assert (getitem item "input" = Ok (VStr text)) as ->
          by (unfold getitem; by rewrite Hin).
        cbn [mbind result_bind]. rewrite Hl. reflexivity.
      + constructor; [|done]. by exists text, l. }
  eexists items', _. split.
  - unfold generate. subst self1 model items.
    destruct (inference_model self) as [self1 model]. cbn [fst snd] in *.
    unfold mbind at 1, M_bind at 1, lift at 1. rewrite Hmap.
    unfold mbind, M_bind, emit, mret, M_ret. reflexivity.
  - done.
Qed.

(** X22. [generate] has no handling of a failing item: an evaluation item
    without the [input] column makes the whole call raise, a [KeyError] when
    it is the first item. *)
Theorem generate_item_without_input self instruction input data fromdb type
    iteration test_iteration (w : World) (item : Row) :
  let self1 := (inference_model self).1 in
  let items := get_eval_input self1 instruction input data fromdb type iteration in
  item ∈ items →
  item !! "input" = None →
  (∃ e, generate self instruction input data fromdb type iteration test_iteration w
        = Raise e) ∧
  (head items = Some item →
   generate self instruction input data fromdb type iteration test_iteration w
   = Raise (KeyError "input")).
Proof.
  intros self1 items Hin Hnone.
  unfold generate. subst self1 items.
  destruct (inference_model self) as [self1 model]. cbn [fst snd] in *.
  unfold mbind at 1, M_bind at 1, lift at 1. split.
  - destruct (mapR_Raise (λ item : Row,
                 text ← getitem item "input";
                 response ← evaluate self1 model text;
                 Ok (<["ac_output" := VStr response]> item)) _ item Hin) as [e ->].
    + exists (KeyError "input"). cbn beta. unfold getitem. by rewrite Hnone.
    + by exists e.
  - destruct (get_eval_input _ _ _ _ _ _ _) as [|item0 items]; [done|].
    intros [= ->]. cbn [mapR]. unfold getitem. by rewrite Hnone.
Qed.

End Further.

(** ** The further properties on the concrete instance *)

Lemma demo_labels_NoDup : NoDup (labels demo_self).
Proof.
  simpl. apply NoDup_cons_2.
  - intros Hin. apply list_elem_of_singleton in Hin. discriminate.
  - apply NoDup_singleton.
Qed.

Lemma evaluate_label_witness :
  "positive" ∈ labels demo_self ∧
  ∃ tok text,
    tokenizer demo_self = Some tok ∧ VStr "good" = VStr text ∧
    labels demo_self !!
      @argmax_logits demo_runtime demo_model
        (<["attention_mask" := VList (replicate (length (tokens tok text)) 1)]>
           (<["input_ids" := VList (tokens tok text)]> ∅)) = Some "positive".
Proof.
  apply (@evaluate_label demo_runtime demo_self demo_model (VStr "good") "positive").
  reflexivity.
Defined.

Lemma evaluate_tokenize_round_trip_witness :
  let row := example "fine" "classify" "positive" in
  ∃ res tok text,
    tokenize_prompt demo_self row = Ok res ∧
    tokenizer demo_self = Some tok ∧ VStr "good" = VStr text ∧
    res !! "labels" =
      Some (VInt (Z.of_nat
        (@argmax_logits demo_runtime demo_model
           (<["attention_mask" := VList (replicate (length (tokens tok text)) 1)]>
              (<["input_ids" := VList (tokens tok text)]> ∅))))).
Proof.
  intros row.
  destruct (tokenize_prompt demo_self row) as [res|e] eqn:Hres;
    [|vm_compute in Hres; discriminate].
  destruct (@evaluate_tokenize_round_trip demo_runtime demo_self demo_model
              (VStr "good") "positive" row res) as (tok & text & Htok & Htext & Hlabel).
  - exact demo_labels_NoDup.
  - reflexivity.
  - unfold row, example. rewrite !lookup_insert_ne by done.
    by rewrite lookup_insert_eq.
  - exact Hres.
  - exists res, tok, text. split; [reflexivity|]. split; [exact Htok|].
    split; [exact Htext | exact Hlabel].
Defined.

Lemma split_train_data_conservation_witness :
  let self := with_val_set_size 1 demo_self in
  let data := Splits {["train" := demo_rows]} in
  ∃ train val (w' : @World demo_random) (ds rows : Dataset),
    split_train_data self data (demo_world ∅ 0) = Ok ((train, val), w') ∧
    getsplit data "train" = Ok ds ∧
    rows ≡ₚ ds ∧
    Forall2 (λ row o, tokenized_row self row = Ok o) rows
      (train ++ default [] val)%list ∧
    (is_Some val ↔ 0 < val_set_size self) ∧
    (length train + length (default [] val) = length ds)%nat ∧
    (∀ v, val = Some v → Z.of_nat (length v) = val_set_size self) ∧
    files w' = files (demo_world ∅ 0) ∧ trace w' = trace (demo_world ∅ 0).
Proof.
  intros self data.
  destruct (split_train_data self data (demo_world ∅ 0))
    as [[[train val] w']|e] eqn:Hrun; [|vm_compute in Hrun; discriminate].
  destruct (@split_train_data_conservation demo_random self data (demo_world ∅ 0)
              w' train val Hrun) as (ds & rows & Hall).
  exists train, val, w', ds, rows. split; [reflexivity | exact Hall].
Defined.


Lemma split_train_data_validation_too_large_witness :
  let H1 := demo_llm (Splits {["train" := demo_rows]}) [] in
  let self := (@finetune_setup demo_runtime H1 (with_val_set_size 3 demo_self)).1 in
  @split_train_data demo_random self (Splits {["train" := demo_rows]}) (demo_world ∅ 0)
    = Raise ValueError ∧
  @finetune demo_random demo_runtime H1 (with_val_set_size 3 demo_self) VNone VNone
    (demo_world ∅ 0) = Raise ValueError.
Proof.
  intros H1 self.
  destruct (@split_train_data_validation_too_large demo_random demo_runtime H1
              self (Splits {["train" := demo_rows]}) demo_rows (demo_world ∅ 0))
    as [Hsplit Hfine].
  - simpl. by rewrite lookup_singleton_eq.
  - simpl. lia.
  - simpl. lia.
  - split; [exact Hsplit|].
    apply (Hfine (with_val_set_size 3 demo_self) VNone VNone {["train" := demo_rows]});
      reflexivity.
Defined.

Lemma split_train_data_no_train_split_witness :
  let d : gmap string Dataset := {["validation" := demo_rows]} in
  let H1 := demo_llm (Splits d) [] in
  let self := (@finetune_setup demo_runtime H1 demo_self).1 in
  @split_train_data demo_random self (Splits d) (demo_world ∅ 0)
    = Raise (KeyError "train") ∧
  @finetune demo_random demo_runtime H1 demo_self VNone VNone (demo_world ∅ 0)
    = Raise (KeyError "train").
Proof.
  intros d H1 self.
  destruct (@split_train_data_no_train_split demo_random demo_runtime H1
              self d (demo_world ∅ 0)) as [Hsplit Hfine].
  - by apply lookup_singleton_ne.
  - split; [exact Hsplit|].
    apply (Hfine demo_self VNone VNone); [reflexivity | reflexivity |].
    intros Hempty.
    apply (f_equal (λ m : gmap string Dataset, m !! "validation")) in Hempty.
    unfold d in Hempty. rewrite lookup_singleton_eq, lookup_empty in Hempty.
    discriminate.
Defined.

Lemma split_train_data_needs_instruction_witness :
  @split_train_data demo_random demo_self (Splits {["train" := [demo_bare_row]]})
    (demo_world ∅ 0) = Raise ValueError.
Proof.
  apply (@split_train_data_needs_instruction demo_random demo_self demo_tokenizer
           (Splits {["train" := [demo_bare_row]]}) [demo_bare_row] (demo_world ∅ 0)).
  - reflexivity.
  - simpl. by rewrite lookup_singleton_eq.
  - discriminate.
  - apply Forall_cons_2; [|apply Forall_nil_2]. unfold demo_bare_row.
    split; [exists "good"; by rewrite lookup_insert_eq|].
    split; [by rewrite !lookup_insert_ne, lookup_empty by done|].
    exists "positive". split; [|apply list_elem_of_here].
    rewrite lookup_insert_ne by done. by rewrite lookup_insert_eq.
  - left. simpl. lia.
Defined.

Lemma resume_checkpoint_nothing_found_witness :
  let self := set_resume_from_checkpoint (VStr "ckpt") demo_self in
  ∃ self2 (w2 : @World demo_random),
    resume_checkpoint self demo_model (demo_world ∅ 0) = Ok ((self2, demo_model), w2) ∧
    resume_from_checkpoint self2 = VBool false ∧
    trace w2 =
      (trace (demo_world ∅ 0) ++
       [Printed ("Checkpoint " +:+ os_path_join "ckpt" "adapter_model.bin"
                 +:+ " not found")])%list ∧
    (∀ p, TorchLoad p ∈ trace w2 → TorchLoad p ∈ trace (demo_world ∅ 0)).
Proof.
  intros self.
  apply (@resume_checkpoint_nothing_found demo_random self demo_model
           (demo_world ∅ 0) "ckpt").
  - reflexivity.
  - discriminate.
  - simpl. apply not_elem_of_empty.
  - simpl. apply not_elem_of_empty.
Defined.


Lemma resume_checkpoint_not_a_path_witness :
  @resume_checkpoint demo_random (set_resume_from_checkpoint (VBool true) demo_self)
    demo_model (demo_world ∅ 0) = Raise TypeError.
Proof.
  apply (@resume_checkpoint_not_a_path demo_random
           (set_resume_from_checkpoint (VBool true) demo_self) demo_model
           (demo_world ∅ 0)).
  - reflexivity.
  - intros dir. discriminate.
Defined.

Lemma resume_checkpoint_once_witness :
  let self := set_resume_from_checkpoint (VStr "ckpt") demo_self in
  let later := demo_world {["ckpt/pytorch_model.bin"]} 0 in
  ∃ self2 model2 (w2 : @World demo_random),
    resume_checkpoint self demo_model (demo_world ∅ 0) = Ok ((self2, model2), w2) ∧
    resume_checkpoint self2 model2 later = Ok ((self2, model2), later).
Proof.
  intros self later.
  destruct (resume_checkpoint self demo_model (demo_world ∅ 0))
    as [[[self2 model2] w2]|e] eqn:Hrun; [|vm_compute in Hrun; discriminate].
  exists self2, model2, w2. split; [reflexivity|].
  apply (@resume_checkpoint_once demo_random self demo_model (demo_world ∅ 0)
           self2 model2 w2 "ckpt").
  - exact Hrun.
  - reflexivity.
  - simpl. apply not_elem_of_empty.
Defined.

Lemma finetune_actions_witness :
  let H1 := demo_llm (Splits {["train" := demo_rows]}) [] in
  let w := demo_world ∅ 0 in
  ∃ self' (w' : @World demo_random),
    @finetune demo_random demo_runtime H1 demo_self VNone VNone w = Ok (self', w') ∧
    (trace w' = (trace w ++ [Printed "Warning! Empty Train Data!"])%list ∨
     ∃ evs t1 t2 m,
       trace w' =
         (trace w ++ evs ++
          [NewTrainer t1; Train t2 (resume_from_checkpoint self');
           SavePretrained m (output_dir self');
           Printed (String "010"%char
             " If there's a warning about missing keys above, please disregard :)")])%list ∧
       Forall (λ e, ∃ s, e = Printed s ∨ e = TorchLoad s) evs ∧
       train_dataset t2 = train_dataset t1 ∧
       eval_dataset t2 = eval_dataset t1 ∧
       args t2 = args t1 ∧
       ta_output_dir (args t2) = output_dir self').
Proof.
  intros H1 w.
  destruct (@finetune demo_random demo_runtime H1 demo_self VNone VNone w)
    as [[self' w']|e] eqn:Hrun; [|vm_compute in Hrun; discriminate].
  exists self', w'. split; [reflexivity|].
  exact (@finetune_actions demo_random demo_runtime H1 demo_self VNone VNone w
           self' w' Hrun).
Defined.

Lemma finetune_evaluation_gate_witness :
  let H1 := demo_llm (Splits {["train" := demo_rows]}) [] in
  let self := with_val_set_size 1 demo_self in
  let w := demo_world ∅ 0 in
  ∃ self' (w' : @World demo_random),
    @finetune demo_random demo_runtime H1 self VNone VNone w = Ok (self', w') ∧
    (trace w' = (trace w ++ [Printed "Warning! Empty Train Data!"])%list ∨
     ∃ before t r after,
       trace w' = (trace w ++ before ++ Train t r :: after)%list ∧
       (is_Some (eval_dataset t) ↔ evaluation_strategy (args t) = "steps") ∧
       (is_Some (eval_dataset t) ↔ load_best_model_at_end (args t) = true) ∧
       (is_Some (eval_dataset t) ↔ eval_steps (args t) = Some (save_steps (args t))) ∧
       (eval_dataset t = None →
        evaluation_strategy (args t) = "no" ∧ eval_steps (args t) = None) ∧
       warmup_steps (args t) = save_steps (args t)).
Proof.
  intros H1 self w.
  destruct (@finetune demo_random demo_runtime H1 self VNone VNone w)
    as [[self' w']|e] eqn:Hrun; [|vm_compute in Hrun; discriminate].
  exists self', w'. split; [reflexivity|].
  exact (@finetune_evaluation_gate demo_random demo_runtime H1 self VNone VNone w
           self' w' Hrun).
Defined.

Lemma finetune_trained_and_saved_model_witness :
  let H1 := demo_llm (Splits {["train" := demo_rows]}) [] in
  let w := demo_world ∅ 0 in
  ∃ self' (w' : @World demo_random),
    @finetune demo_random demo_runtime H1 demo_self VNone VNone w = Ok (self', w') ∧
    (trace w' = (trace w ++ [Printed "Warning! Empty Train Data!"])%list ∨
     ∃ evs t1 t2 r m dir note,
       trace w' =
         (trace w ++ evs ++
          [NewTrainer t1; Train t2 r; SavePretrained m dir; Printed note])%list ∧
       ops (tr_model t2) = (ops (tr_model t1) ++ [NoCache])%list ∧
       (String.leb "2" (@torch_version demo_runtime)
        && negb (String.eqb (@sys_platform demo_runtime) "win32") = true →
        ops m = (ops (tr_model t2) ++ [Compile])%list) ∧
       (String.leb "2" (@torch_version demo_runtime)
        && negb (String.eqb (@sys_platform demo_runtime) "win32") = false →
        m = tr_model t2)).
Proof.
  intros H1 w.
  destruct (@finetune demo_random demo_runtime H1 demo_self VNone VNone w)
    as [[self' w']|e] eqn:Hrun; [|vm_compute in Hrun; discriminate].
  exists self', w'. split; [reflexivity|].
  exact (@finetune_trained_and_saved_model demo_random demo_runtime H1 demo_self
           VNone VNone w self' w' Hrun).
Defined.

Lemma finetune_object_state_witness :
  let H1 := demo_llm (Splits {["train" := demo_rows]}) [] in
  let self := set_resume_from_checkpoint (VStr "ckpt") demo_self in
  ∃ self' (w' : @World demo_random) tok,
    @finetune demo_random demo_runtime H1 self VNone VNone (demo_world ∅ 0)
      = Ok (self', w') ∧
    tokenizer self' = Some tok ∧
    pad_token tok = Some "</s>" ∧
    lora_target_modules self' ≠ [] ∧
    labels self' = labels self ∧
    output_dir self' = output_dir self.
Proof.
  intros H1 self.
  destruct (@finetune demo_random demo_runtime H1 self VNone VNone (demo_world ∅ 0))
    as [[self' w']|e] eqn:Hrun; [|vm_compute in Hrun; discriminate].
  destruct (@finetune_object_state demo_random demo_runtime H1 self VNone VNone
              (demo_world ∅ 0) self' w' Hrun)
    as ((tok & Htok & _ & _ & Hpad) & Hmods & _ & _ & Hlabels & _ & _ & _ & Hout & _).
  exists self', w', tok. split; [reflexivity|]. split; [exact Htok|].
  split; [exact Hpad|]. split; [exact Hmods|]. split; [exact Hlabels | exact Hout].
Defined.

Lemma generate_annotates_witness :
  let H1 := demo_llm NoData demo_rows in
  let self1 := (@inference_model demo_runtime H1 demo_self).1 in
  let model := (@inference_model demo_runtime H1 demo_self).2 in
  ∃ (items' : Dataset) (w' : @World demo_random),
    @generate demo_random demo_runtime H1 demo_self VNone VNone VNone VNone VNone
      VNone VNone (demo_world ∅ 0) = Ok (self1, w') ∧
    trace w' = (trace (demo_world ∅ 0) ++ [EvalOutput items'])%list ∧
    files w' = files (demo_world ∅ 0) ∧
    Forall2 (λ item item' : Row,
               ∃ text l, item !! "input" = Some (VStr text) ∧
                         @evaluate demo_runtime self1 model (VStr text) = Ok l ∧
                         l ∈ labels self1 ∧
                         item' = <["ac_output" := VStr l]> item) demo_rows items'.
Proof.
  intros H1 self1 model.
  apply (@generate_annotates demo_random demo_runtime H1 demo_self VNone VNone VNone
           VNone VNone VNone VNone (demo_world ∅ 0)).
  - change (Forall (λ item : Row, ∃ text, item !! "input" = Some (VStr text)) demo_rows).
    unfold demo_rows.
    repeat apply Forall_cons_2; [..|apply Forall_nil_2];
      eexists; unfold example; by rewrite lookup_insert_eq.
  - intros inputs. simpl. lia.
Defined.

Lemma generate_item_without_input_witness :
  let H1 := demo_llm NoData [example "good" "classify" "positive"; (∅ : Row)] in
  ∃ e, @generate demo_random demo_runtime H1 demo_self VNone VNone VNone VNone VNone
         VNone VNone (demo_world ∅ 0) = Raise e.
Proof.
  intros H1.
  destruct (@generate_item_without_input demo_random demo_runtime H1 demo_self
              VNone VNone VNone VNone VNone VNone VNone (demo_world ∅ 0) ∅)
    as [Hraise _].
  - apply list_elem_of_further, list_elem_of_here.
  - apply lookup_empty.
  - exact Hraise.
Defined.

(** ** The amended claims on the concrete instance *)

Lemma finetune_empty_data_witness :
  ∃ w' : @World demo_random,
    @finetune demo_random demo_runtime (demo_llm NoData []) demo_self VNone VNone
      (demo_world ∅ 0)
    = Ok ((@finetune_setup demo_runtime (demo_llm NoData []) demo_self).1, w') ∧
    trace w' = [Printed "Warning! Empty Train Data!"].
Proof.
  destruct (@finetune_empty_data demo_random demo_runtime (demo_llm NoData [])
              demo_self VNone VNone (demo_world ∅ 0)) as (_ & Hearly & _).
  destruct Hearly as (w' & Hrun & Htrace & _).
  - reflexivity.
  - exists w'. split; [exact Hrun | exact Htrace].
Defined.

(** C3 as stated fails: a dict whose train split has zero rows is empty
    training data, yet [not data] is false of it, no warning is printed, and
    the trainer is built and run. *)
Lemma finetune_zero_row_train_split :
  ¬ (∀ (L : LLM) (self : LLAMAClassify) fromdb iteration (w : @World demo_random),
       no_rows (@load_train_data L (@finetune_setup demo_runtime L self).1
                  fromdb iteration) →
       ∃ self' (w' : @World demo_random),
         @finetune demo_random demo_runtime L self fromdb iteration w = Ok (self', w') ∧
         Printed "Warning! Empty Train Data!" ∈ trace w' ∧
         (∀ t, NewTrainer t ∉ trace w') ∧
         (∀ t r, Train t r ∉ trace w')).
Proof.
  intros Hclaim.
  destruct (Hclaim (demo_llm (Splits {["train" := []]}) []) demo_self VNone VNone
              (demo_world ∅ 0)) as (self' & w' & Hrun & _ & _ & Hno).
  - simpl. intros k rows Hk. apply lookup_singleton_Some in Hk as [_ <-]. done.
  - vm_compute in Hrun. injection Hrun as <- <-.
    eapply Hno. simpl. apply list_elem_of_further, list_elem_of_here.
Qed.

(** C8 as stated fails: a positive validation-set size that is not below
    the row count gives no partition at all, the split raises instead. *)
Lemma split_train_data_partition_oversized :
  ¬ (∀ (self : LLAMAClassify) tok data (ds : Dataset) (w : @World demo_random),
       0 < val_set_size self →
       tokenizer self = Some tok →
       getsplit data "train" = Ok ds →
       Forall (well_formed self) ds →
       ∃ (train val : Dataset) (w' : @World demo_random),
         split_train_data self data w = Ok ((train, Some val), w') ∧
         (length train + length val = length ds)%nat).
Proof.
  intros Hclaim.
  destruct (Hclaim (with_val_set_size 3 demo_self) demo_tokenizer
              (Splits {["train" := demo_rows]}) demo_rows (demo_world ∅ 0))
    as (train & val & w' & Hrun & _).
  - simpl. lia.
  - reflexivity.
  - simpl. by rewrite lookup_singleton_eq.
  - by apply demo_rows_well_formed.
  - vm_compute in Hrun. discriminate.
Qed.
